(** * Code-Debugger-NLP: the recommendation engine, embedded and verified

    A shallow embedding of [backend/recommendation_engine_v3.py]: the log
    classifier ([ErrorLogAnalyzer]), the static code analysis
    ([StaticCodeAnalysis]), the rule catalog ([RuleBasedSystem]), the
    heuristic recommender ([LanguageModelAnalyzer]) and the pipeline
    ([CodeErrorRecommendationEngine.analyze_error]).

    Modelling conventions.
    - Python [str] is [string], a character being a code point from U+0000
      to U+00FF; the embedding is exact on such text.  The character
      classes of [re], [str.strip], [str.lower] and [str.isdigit] are the
      Unicode ones restricted to these code points; [str.isdigit] accepts
      the superscripts U+00B2, U+00B3 and U+00B9, which [int] rejects.
      The characters above U+00FF that the literals of [format_output]
      hold are kept as the bytes of their UTF-8 encoding.
    - Python [int] is [Z].  [int(s)] is modelled on the strings the program
      passes to it, which hold digits only: it raises [ValueError] on a
      string that is empty, that holds a character other than 0..9, or that
      is longer than the interpreter's default limit of 4300 digits.
      [str(n)] is applied to a number that [int] returned or to the
      position of a fix in the report, which stay within that limit.
    - An operation that can raise in Python ([int(...)], indexing a list)
      returns a [pyres]; the functions that call it thread the exception.
    - [print] calls are dropped: they do not influence any returned value.
    - [list(set(xs))] has no specified order in Python; the model keeps the
      first occurrence of each element. *)

From Stdlib Require Import Bool List ZArith Lia Ascii String.
From Stdlib Require Import Numbers.DecimalString.
Import ListNotations.

Open Scope bool_scope.
Open Scope string_scope.

(** ** Python results *)

Inductive pyres (A : Type) : Type :=
| Val (a : A)
| ValueError
| IndexError.

Arguments Val {A} a.
Arguments ValueError {A}.
Arguments IndexError {A}.

Definition bind {A B : Type} (x : pyres A) (f : A -> pyres B) : pyres B :=
  match x with
  | Val a => f a
  | ValueError => ValueError
  | IndexError => IndexError
  end.

Notation "x <- e ;; k" := (bind e (fun x => k))
  (at level 61, e at next level, right associativity).

(** ** Python strings *)

Module PyStr.

Definition nl : string := String "010"%char "".
Definition dq : string := String "034"%char "".

Definition code_of (c : ascii) : nat := nat_of_ascii c.

Definition in_range (lo hi : nat) (c : ascii) : bool :=
  (lo <=? code_of c)%nat && (code_of c <=? hi)%nat.

Definition is_upper (c : ascii) : bool := in_range 65 90 c.
Definition is_lower (c : ascii) : bool := in_range 97 122 c.
Definition is_digit (c : ascii) : bool := in_range 48 57 c.

(** [str.isspace] on one character: TAB..CR, FS..US, the blank, NEL and
    the no-break space. *)
Definition is_space (c : ascii) : bool :=
  in_range 9 13 c || in_range 28 32 c || in_range 133 133 c
  || in_range 160 160 c.

(** [\w] of [re]: the alphanumeric characters and the underscore. *)
Definition is_word (c : ascii) : bool :=
  is_upper c || is_lower c || is_digit c || Ascii.eqb c "_"%char
  || in_range 170 170 c || in_range 178 179 c || in_range 181 181 c
  || in_range 185 186 c || in_range 188 190 c || in_range 192 214 c
  || in_range 216 246 c || in_range 248 255 c.

(** The lower case of one character: A..Z and the capital letters of
    U+00C0..U+00DE. *)
Definition lower_char (c : ascii) : ascii :=
  if is_upper c || in_range 192 214 c || in_range 216 222 c
  then ascii_of_nat (code_of c + 32) else c.

(** [s.lower()] *)
Fixpoint lower (s : string) : string :=
  match s with
  | EmptyString => EmptyString
  | String c s' => String (lower_char c) (lower s')
  end.

Fixpoint rev (s : string) : string :=
  match s with
  | EmptyString => EmptyString
  | String c s' => rev s' ++ String c EmptyString
  end.

Fixpoint lstrip (s : string) : string :=
  match s with
  | EmptyString => EmptyString
  | String c s' => if is_space c then lstrip s' else s
  end.

(** [s.strip()] *)
Definition strip (s : string) : string := rev (lstrip (rev (lstrip s))).

Fixpoint all_chars (f : ascii -> bool) (s : string) : bool :=
  match s with
  | EmptyString => true
  | String c s' => f c && all_chars f s'
  end.

(** The characters that [str.isdigit] accepts: 0..9 and the superscripts
    two, three and one. *)
Definition is_digit_like (c : ascii) : bool :=
  is_digit c || in_range 178 179 c || in_range 185 185 c.

(** [s.isdigit()]: at least one character, all of them digits. *)
Definition isdigit (s : string) : bool :=
  match s with
  | EmptyString => false
  | _ => all_chars is_digit_like s
  end.

Definition digit_val (c : ascii) : Z := Z.of_nat (code_of c - 48).

Fixpoint digits_val (acc : Z) (s : string) : Z :=
  match s with
  | EmptyString => acc
  | String c s' => digits_val (10 * acc + digit_val c) s'
  end.

(** [sys.get_int_max_str_digits()], by default. *)
Definition max_str_digits : nat := 4300.

(** [int(s)] *)
Definition int (s : string) : pyres Z :=
  match s with
  | EmptyString => ValueError
  | _ =>
      if all_chars is_digit s then
        if (String.length s <=? max_str_digits)%nat
        then Val (digits_val 0 s)
        else ValueError
      else ValueError
  end.

(** [str(n)] as used by f-strings *)
Definition str_of_int (n : Z) : string :=
  NilZero.string_of_int (Z.to_int n).

(** [needle in s] *)
Fixpoint contains (needle s : string) : bool :=
  prefix needle s ||
  match s with
  | EmptyString => false
  | String _ s' => contains needle s'
  end.

(** [any(k in s for k in ks)] *)
Definition contains_any (ks : list string) (s : string) : bool :=
  existsb (fun k => contains k s) ks.

(** [s.split('\n')] *)
Fixpoint split_lines (s : string) : list string :=
  match s with
  | EmptyString => [EmptyString]
  | String c s' =>
      if Ascii.eqb c "010"%char then EmptyString :: split_lines s'
      else match split_lines s' with
           | l :: ls => String c l :: ls
           | [] => [String c EmptyString]
           end
  end.

(** ['\n'.join(ls)] *)
Fixpoint join_lines (ls : list string) : string :=
  match ls with
  | [] => EmptyString
  | [l] => l
  | l :: ls' => l ++ nl ++ join_lines ls'
  end.

(** [s[:n]] for a non-negative constant [n] *)
Definition take (n : nat) (s : string) : string := substring 0 n s.

(** The escape sequences of a non-raw Python string literal that the source
    uses: backslash-n, backslash-quote and a doubled backslash. *)
Fixpoint unescape (esc : bool) (s : string) : string :=
  match s with
  | EmptyString => EmptyString
  | String c s' =>
      if esc then
        (if Ascii.eqb c "n"%char then String "010"%char (unescape false s')
         else String c (unescape false s'))
      else if Ascii.eqb c "\"%char then unescape true s'
      else String c (unescape false s')
  end.

Definition lit (s : string) : string := unescape false s.

(** Python list slicing [l[a:b]] with integer bounds. *)
Definition clip_index (len i : Z) : Z :=
  let j := if (i <? 0)%Z then (i + len)%Z else i in
  Z.max 0 (Z.min len j).

Definition slice {A : Type} (l : list A) (a b : Z) : list A :=
  let len := Z.of_nat (List.length l) in
  let lo := clip_index len a in
  let hi := clip_index len b in
  firstn (Z.to_nat (hi - lo)) (skipn (Z.to_nat lo) l).

(** [list(set(xs))].  Python leaves the order of a set unspecified; the
    model lists the elements in the order of their first occurrence, and
    the statements about it speak of membership and length only. *)
Fixpoint dedup (seen xs : list string) : list string :=
  match xs with
  | [] => []
  | x :: xs' =>
      if existsb (String.eqb x) seen then dedup seen xs'
      else x :: dedup (x :: seen) xs'
  end.

(** [s * n] *)
Fixpoint repeat_str (s : string) (n : nat) : string :=
  match n with
  | O => EmptyString
  | S n' => s ++ repeat_str s n'
  end.

(** A character outside ASCII that a string literal of the source holds,
    kept as the bytes of its UTF-8 encoding. *)
Fixpoint utf8 (codes : list nat) : string :=
  match codes with
  | [] => EmptyString
  | c :: rest => String (ascii_of_nat c) (utf8 rest)
  end.

End PyStr.

(** ** The fragment of [re] the program uses

    Patterns are kept as the source writes them and compiled by [parse]:
    literals, the escapes [\w \d \s \n] and escaped punctuation, [.], the
    greedy quantifiers [+] and [*] on a single character, unnested groups
    and [$].  Matching is a backtracking search, leftmost start first and
    longest repetition first, as in [re]. *)

Module Re.

Import PyStr.

Inductive atom : Type :=
| AWord
| ADigit
| ASpace
| ADot
| AChar (c : ascii).

Inductive tok : Type :=
| One (a : atom)
| Many (a : atom) (least_one : bool)
| Open
| Close
| Eol.

(** Lexing: one raw item per pattern character, escapes resolved. *)
Inductive raw : Type :=
| RAtom (a : atom)
| RPlus
| RStar
| ROpen
| RClose
| RDollar.

Definition escaped (c : ascii) : atom :=
  if Ascii.eqb c "w"%char then AWord
  else if Ascii.eqb c "d"%char then ADigit
  else if Ascii.eqb c "s"%char then ASpace
  else if Ascii.eqb c "n"%char then AChar "010"%char
  else AChar c.

Definition plain (c : ascii) : raw :=
  if Ascii.eqb c "."%char then RAtom ADot
  else if Ascii.eqb c "+"%char then RPlus
  else if Ascii.eqb c "*"%char then RStar
  else if Ascii.eqb c "("%char then ROpen
  else if Ascii.eqb c ")"%char then RClose
  else if Ascii.eqb c "$"%char then RDollar
  else RAtom (AChar c).

Fixpoint lex (esc : bool) (s : string) : list raw :=
  match s with
  | EmptyString => []
  | String c s' =>
      if esc then RAtom (escaped c) :: lex false s'
      else if Ascii.eqb c "\"%char then lex true s'
      else plain c :: lex false s'
  end.

Fixpoint quantify (l : list raw) : list tok :=
  match l with
  | [] => []
  | RAtom a :: l1 =>
      match l1 with
      | RPlus :: l2 => Many a true :: quantify l2
      | RStar :: l2 => Many a false :: quantify l2
      | _ => One a :: quantify l1
      end
  | ROpen :: l1 => Open :: quantify l1
  | RClose :: l1 => Close :: quantify l1
  | RDollar :: l1 => Eol :: quantify l1
  | RPlus :: l1 => quantify l1
  | RStar :: l1 => quantify l1
  end.

(** [re.compile(pattern)] *)
Definition parse (pattern : string) : list tok := quantify (lex false pattern).

(** Does the atom accept the character?  [ci] is [re.IGNORECASE]. *)
Definition accepts (ci : bool) (a : atom) (c : ascii) : bool :=
  match a with
  | AWord => is_word c
  | ADigit => is_digit c
  | ASpace => is_space c
  | ADot => negb (Ascii.eqb c "010"%char)
  | AChar x =>
      if ci then Ascii.eqb (lower_char x) (lower_char c) else Ascii.eqb x c
  end.

(** The matcher state: the text of the group being captured (reversed),
    if one is open, and the groups already closed. *)
Definition push (c : ascii) (cur : option string) : option string :=
  match cur with
  | Some b => Some (String c b)
  | None => None
  end.

Definition close_group (cur : option string) (done : list string) : list string :=
  match cur with
  | Some b => done ++ [rev b]
  | None => done
  end.

Definition cont : Type :=
  string -> option string -> list string -> option (list string * string).

(** Greedy repetition: take one more character if possible, and fall back
    to the continuation when the longer attempt fails. *)
Fixpoint star (acc : ascii -> bool) (k : cont)
    (s : string) (cur : option string) (done : list string)
    : option (list string * string) :=
  match s with
  | String c s' =>
      if acc c then
        match star acc k s' (push c cur) done with
        | Some r => Some r
        | None => k s cur done
        end
      else k s cur done
  | EmptyString => k s cur done
  end.

(** Match the pattern at the start of [s]; the result is the captured
    groups and the unread rest of the text. *)
Fixpoint match_here (ci : bool) (p : list tok) : cont :=
  match p with
  | [] => fun s _ done => Some (done, s)
  | One a :: p' => fun s cur done =>
      match s with
      | String c s' =>
          if accepts ci a c then match_here ci p' s' (push c cur) done else None
      | EmptyString => None
      end
  | Many a least_one :: p' => fun s cur done =>
      if least_one then
        match s with
        | String c s' =>
            if accepts ci a c
            then star (accepts ci a) (match_here ci p') s' (push c cur) done
            else None
        | EmptyString => None
        end
      else star (accepts ci a) (match_here ci p') s cur done
  | Open :: p' => fun s _ done => match_here ci p' s (Some EmptyString) done
  | Close :: p' => fun s cur done => match_here ci p' s None (close_group cur done)
  | Eol :: p' => fun s cur done =>
      match s with
      | EmptyString => match_here ci p' s cur done
      | String c _ =>
          if Ascii.eqb c "010"%char then match_here ci p' s cur done else None
      end
  end.

(** The leftmost match of the pattern anywhere in [s]. *)
Fixpoint search_from (ci : bool) (p : list tok) (s : string)
    : option (list string * string) :=
  match match_here ci p s None [] with
  | Some r => Some r
  | None =>
      match s with
      | EmptyString => None
      | String _ s' => search_from ci p s'
      end
  end.

(** [re.search(pattern, s, flags)], returning [match.groups()]. *)
Definition search (ci : bool) (pattern s : string) : option (list string) :=
  option_map fst (search_from ci (parse pattern) s).

(** [if re.search(pattern, s, flags):] *)
Definition is_match (ci : bool) (pattern s : string) : bool :=
  match search ci pattern s with
  | Some _ => true
  | None => false
  end.

(** [re.findall(pattern, s)] for a pattern with exactly one group: the text
    of that group for every non-overlapping match, left to right.  [skip]
    counts the characters of the previous match still to be passed. *)
Fixpoint findall_from (p : list tok) (skip : nat) (s : string) : list string :=
  match skip with
  | S k =>
      match s with
      | EmptyString => []
      | String _ s' => findall_from p k s'
      end
  | O =>
      match match_here false p s None [] with
      | Some (g :: _, rest) =>
          g :: match s with
               | EmptyString => []
               | String _ s' =>
                   findall_from p (String.length s - String.length rest - 1) s'
               end
      | _ =>
          match s with
          | EmptyString => []
          | String _ s' => findall_from p 0 s'
          end
      end
  end.

Definition findall (pattern s : string) : list string :=
  findall_from (parse pattern) 0 s.

(** A run of literal characters, as [parse] renders it. *)
Fixpoint lits (s : string) : list tok :=
  match s with
  | EmptyString => []
  | String c s' => One (AChar c) :: lits s'
  end.

End Re.

(** ** Python dict literals

    A dict keeps its keys in insertion order; writing a key a second time
    replaces the value and keeps the key's first position. *)

Module PyDict.

Section Dict.
Context {K V : Type}.
Variable eqb : K -> K -> bool.

Fixpoint mem (k : K) (d : list (K * V)) : bool :=
  match d with
  | [] => false
  | (k', _) :: d' => eqb k k' || mem k d'
  end.

Fixpoint replace (k : K) (v : V) (d : list (K * V)) : list (K * V) :=
  match d with
  | [] => []
  | (k', v') :: d' =>
      if eqb k k' then (k', v) :: d' else (k', v') :: replace k v d'
  end.

Definition set (d : list (K * V)) (kv : K * V) : list (K * V) :=
  if mem (fst kv) d then replace (fst kv) (snd kv) d else d ++ [kv].

(** [{k1: v1, k2: v2, ...}] *)
Definition literal (entries : list (K * V)) : list (K * V) :=
  fold_left set entries [].

(** [d.get(k)] *)
Fixpoint get (d : list (K * V)) (k : K) : option V :=
  match d with
  | [] => None
  | (k', v) :: d' => if eqb k k' then Some v else get d' k
  end.
End Dict.

End PyDict.

(** ** Data model *)

Inductive ErrorSeverity : Type := CRITICAL | HIGH | MEDIUM | LOW.

(** [severity.value] *)
Definition ErrorSeverity_value (s : ErrorSeverity) : string :=
  match s with
  | CRITICAL => "Critical"
  | HIGH => "High"
  | MEDIUM => "Medium"
  | LOW => "Low"
  end.

Inductive ErrorClassification : Type :=
  SYNTAX | RUNTIME | LOGICAL | SEMANTIC | UNKNOWN.

(** [ErrorClassification(value)]: lookup of an enum member by its value. *)
Definition ErrorClassification_of (value : string) : pyres ErrorClassification :=
  if value =? "syntax" then Val SYNTAX
  else if value =? "runtime" then Val RUNTIME
  else if value =? "logical" then Val LOGICAL
  else if value =? "semantic" then Val SEMANTIC
  else if value =? "unknown" then Val UNKNOWN
  else ValueError.

Record ErrorInfo : Type := mkErrorInfo {
  error_type : string;
  line_number : option Z;
  variables : list string;
  full_message : string;
  classification : ErrorClassification
}.

Record CodeInfo : Type := mkCodeInfo {
  language : string;
  error_block : string;
  error_lines : list string;
  intent : string
}.

Record Fix : Type := mkFix {
  title : string;
  code : string;
  fix_explanation : string
}.

(** The dict that [RuleBasedSystem.rules] stores per key and that
    [analyze_complex_error] returns. *)
Record Recommendation : Type := mkRecommendation {
  r_explanation : string;
  r_severity : ErrorSeverity;
  r_impact : string;
  r_fixes : list Fix;
  r_best_practices : list string
}.

Record RecommendationResult : Type := mkRecommendationResult {
  explanation : string;
  severity : ErrorSeverity;
  impact : string;
  proposed_fixes : list Fix;
  best_practices : list string;
  priority_reasoning : string
}.

(** [if x:] on an optional integer: [None] and [0] are false. *)
Definition truthy_int (n : option Z) : bool :=
  match n with
  | None => false
  | Some z => negb (z =? 0)%Z
  end.

(** [if s:] on a string. *)
Definition truthy_str (s : string) : bool :=
  match s with
  | EmptyString => false
  | _ => true
  end.

(** ** ErrorLogAnalyzer *)

Module ErrorLogAnalyzer.

Import PyStr.

(** The entries of the [error_patterns] literal, as written. *)
Definition error_patterns_entries : list (string * (string * string)) :=
  [ ("(\w+Error): (.+) at line (\d+)", ("python", "runtime"));
    ("(\w+Error): (.+)", ("python", "runtime"));
    ("(\w+Exception): (.+)", ("python", "runtime"));
    ("SyntaxError: (.+) at line (\d+)", ("python", "syntax"));
    ("File " ++ dq ++ "(.+)" ++ dq
       ++ ", line (\d+), in (.+)\n\s*(.+)\n(\w+Error): (.+)",
     ("python", "runtime"));
    ("json\.decoder\.JSONDecodeError: (.+)", ("python", "runtime"));
    ("Exception in thread " ++ dq ++ "(.+)" ++ dq
       ++ " (\w+Exception): (.+) at (.+):(\d+)",
     ("java", "runtime"));
    ("(\w+Exception): (.+)", ("java", "runtime"));
    ("(\w+Error): (.+) at line (\d+)", ("javascript", "runtime"));
    ("ReferenceError: (.+) is not defined", ("javascript", "runtime"));
    ("TypeError: (.+)", ("javascript", "runtime"));
    ("error: (.+) at line (\d+)", ("c", "syntax"));
    ("segmentation fault", ("c", "runtime")) ].

(** [self.error_patterns]: the dict the literal evaluates to. *)
Definition error_patterns : list (string * (string * string)) :=
  PyDict.literal String.eqb error_patterns_entries.

(** The loop over [groups] that looks for the line number. *)
Fixpoint first_line_number (groups : list string) : pyres (option Z) :=
  match groups with
  | [] => Val None
  | group :: rest =>
      if truthy_str group && isdigit group
      then n <- int group ;; Val (Some n)
      else first_line_number rest
  end.

Definition var_patterns : list string :=
  [ "'(\w+)' is not defined";
    "'(\w+)' has no attribute";
    "cannot access '(\w+)'";
    "variable '(\w+)'";
    "undefined variable '(\w+)'" ].

Definition _extract_variables (error_log : string) : list string :=
  dedup [] (flat_map (fun pattern => Re.findall pattern error_log) var_patterns).

Definition line_patterns : list string :=
  [ "line (\d+)"; ":(\d+):"; "at (\d+)" ].

(** [match.group(1)] *)
Definition group1 (groups : list string) : pyres string :=
  match groups with
  | g :: _ => Val g
  | [] => IndexError
  end.

Fixpoint extract_line_number_loop (patterns : list string) (error_log : string)
    : pyres (option Z) :=
  match patterns with
  | [] => Val None
  | pattern :: rest =>
      match Re.search false pattern error_log with
      | Some groups => g <- group1 groups ;; n <- int g ;; Val (Some n)
      | None => extract_line_number_loop rest error_log
      end
  end.

Definition _extract_line_number (error_log : string) : pyres (option Z) :=
  extract_line_number_loop line_patterns error_log.

(** The body of the loop of [analyze] for a rule that matched. *)
Definition on_match (groups : list string) (classification : string)
    (error_log : string) : pyres ErrorInfo :=
  let error_type :=
    match groups with
    | g :: _ => g
    | [] => "UnknownError"
    end in
  line_number <- first_line_number groups ;;
  let variables := _extract_variables error_log in
  cls <- ErrorClassification_of classification ;;
  Val (mkErrorInfo error_type line_number variables error_log cls).

(** The [for pattern, (lang, classification) in ...] loop: [None] when the
    loop ends without returning. *)
Fixpoint scan (rules : list (string * (string * string))) (error_log : string)
    : option (pyres ErrorInfo) :=
  match rules with
  | [] => None
  | (pattern, (lang, classification)) :: rest =>
      match Re.search true pattern error_log with
      | Some groups => Some (on_match groups classification error_log)
      | None => scan rest error_log
      end
  end.

Definition analyze (error_log : string) : pyres ErrorInfo :=
  let error_log := strip error_log in
  match scan error_patterns error_log with
  | Some r => r
  | None =>
      line_number <- _extract_line_number error_log ;;
      Val (mkErrorInfo "UnknownError" line_number
             (_extract_variables error_log) error_log UNKNOWN)
  end.

End ErrorLogAnalyzer.

(** ** StaticCodeAnalysis *)

Module StaticCodeAnalysis.

Import PyStr.

Definition language_patterns : list (string * list string) :=
  PyDict.literal String.eqb
  [ ("python", ["def\s+\w+"; "import\s+\w+"; "print\s*\("; ":\s*$"]);
    ("java", ["public\s+class"; "System\.out\.print";
              "public\s+static\s+void\s+main"]);
    ("javascript", ["function\s+\w+"; "console\.log"; "var\s+\w+"; "let\s+\w+"]);
    ("c", ["#include"; "int\s+main"; "printf"]);
    ("cpp", ["#include"; "std::"; "cout\s*<<"]) ].

Fixpoint detect_language_loop (items : list (string * list string))
    (code : string) : string :=
  match items with
  | [] => "unknown"
  | (lang, patterns) :: rest =>
      let matches :=
        List.length (filter (fun pattern => Re.is_match false pattern code) patterns) in
      if (1 <=? matches)%nat then lang else detect_language_loop rest code
  end.

Definition _detect_language (code : string) : string :=
  detect_language_loop language_patterns code.

(** [l[i]] for a non-negative index. *)
Definition index {A : Type} (l : list A) (i : nat) : pyres A :=
  match nth_error l i with
  | Some x => Val x
  | None => IndexError
  end.

Definition _extract_error_lines (code : string) (line_number : option Z)
    : pyres (list string) :=
  if negb (truthy_int line_number) then
    first <- index (split_lines code) 0 ;; Val [first]
  else
    let n := match line_number with Some z => z | None => 0%Z end in
    let lines := split_lines code in
    if (n <=? Z.of_nat (List.length lines))%Z then
      let start := Z.max 0 (n - 2) in
      let end_ := Z.min (Z.of_nat (List.length lines)) (n + 1) in
      Val (slice lines start end_)
    else Val [].

Definition block_keywords : list string :=
  ["def "; "class "; "for "; "while "; "if "].

(** [for i in range(start_line, -1, -1)] with its [break]: the index where
    the loop stopped, or [None] when it ran to the end. *)
Fixpoint scan_back (lines : list string) (i : nat) : pyres (option nat) :=
  line <- index lines i ;;
  if contains_any block_keywords (strip line) then Val (Some i)
  else match i with
       | O => Val None
       | S j => scan_back lines j
       end.

Definition _identify_error_block (code : string) (line_number : option Z)
    : pyres string :=
  if negb (truthy_int line_number) then Val (take 200 code)
  else
    let n := match line_number with Some z => z | None => 0%Z end in
    let lines := split_lines code in
    if (n <=? Z.of_nat (List.length lines))%Z then
      let start_line := Z.max 0 (n - 1) in
      found <- scan_back lines (Z.to_nat start_line) ;;
      let start_line :=
        match found with
        | Some i => Z.of_nat i
        | None => start_line
        end in
      let end_line := Z.min (Z.of_nat (List.length lines)) (n + 5) in
      Val (join_lines (slice lines start_line end_line))
    else Val code.

Definition _determine_code_intent (code_block language : string) : string :=
  let code_lower := strip (lower code_block) in
  if contains "def " code_lower || contains "function " code_lower
  then "function definition"
  else if contains_any ["for "; "while "] code_lower then "loop"
  else if contains "class " code_lower then "class definition"
  else if contains_any ["if "; "elif "; "else"] code_lower
  then "conditional statement"
  else if contains "=" code_lower && negb (contains "==" code_lower)
  then "variable assignment"
  else if contains_any ["import "; "#include"] code_lower
  then "import/include statement"
  else "code execution".

Definition analyze (code : string) (error_info : ErrorInfo) : pyres CodeInfo :=
  let language := _detect_language code in
  error_lines <- _extract_error_lines code (line_number error_info) ;;
  error_block <- _identify_error_block code (line_number error_info) ;;
  let intent := _determine_code_intent error_block language in
  Val (mkCodeInfo language error_block error_lines intent).

End StaticCodeAnalysis.

(** ** RuleBasedSystem *)

Module RuleBasedSystem.

Import PyStr.

Definition key_eqb (a b : string * string) : bool :=
  (fst a =? fst b) && (snd a =? snd b).

Definition rules_entries : list ((string * string) * Recommendation) :=
  [ (("IndexError", "python"),
     mkRecommendation
       "An IndexError occurs when trying to access a list, tuple, or string index that doesn't exist."
       HIGH
       "This will halt program execution immediately and may cause data loss if not handled."
       [ mkFix "Bounds Checking"
           (lit "if index < len(my_list):\n    value = my_list[index]")
           "Always check if the index is within valid range before accessing.";
         mkFix "Use Enumerate"
           (lit "for i, item in enumerate(my_list):\n    # Process item")
           "Use enumerate() to safely iterate with indices." ]
       [ "Always validate array/list bounds before accessing elements";
         "Use len() function to check collection size";
         "Consider using try/except blocks for error handling" ]);

    (("NameError", "python"),
     mkRecommendation
       "A NameError occurs when trying to use a variable or function name that hasn't been defined."
       HIGH
       "This prevents the code from running and indicates a missing variable definition."
       [ mkFix "Define Variable"
           "variable_name = initial_value"
           "Ensure the variable is defined before using it.";
         mkFix "Check Imports"
           "from module import function_name"
           "Make sure required functions are properly imported." ]
       [ "Define all variables before using them";
         "Check spelling of variable and function names";
         "Ensure proper import statements" ]);

    (("SyntaxError", "python"),
     mkRecommendation
       "A SyntaxError occurs when Python cannot parse the code due to incorrect syntax."
       CRITICAL
       "The code cannot run at all until the syntax is fixed."
       [ mkFix "Check Indentation"
           (lit "if condition:\n    statement  # Proper indentation")
           "Ensure consistent indentation (4 spaces recommended).";
         mkFix "Check Parentheses"
           "result = function(arg1, arg2)"
           "Make sure all parentheses, brackets, and braces are properly closed." ]
       [ "Use consistent indentation (4 spaces)";
         "Match all opening and closing brackets/parentheses";
         "Use a code editor with syntax highlighting" ]);

    (("ZeroDivisionError", "python"),
     mkRecommendation
       "A ZeroDivisionError occurs when attempting to divide by zero."
       HIGH
       "This will halt program execution and indicates improper input validation."
       [ mkFix "Check Divisor"
           (lit "if divisor != 0:\n    result = numerator / divisor\nelse:\n    result = float(\'inf\')")
           "Always check if the divisor is zero before performing division.";
         mkFix "Use Try-Except"
           (lit "try:\n    result = numerator / divisor\nexcept ZeroDivisionError:\n    result = None  # or handle appropriately")
           "Handle division by zero with exception handling." ]
       [ "Validate inputs before mathematical operations";
         "Consider what should happen when division by zero occurs";
         "Use appropriate default values or error handling" ]);

    (("AttributeError", "python"),
     mkRecommendation
       "An AttributeError occurs when trying to access an attribute or method that doesn't exist on an object."
       HIGH
       "This will crash the program and often indicates None values or incorrect object types."
       [ mkFix "None Check"
           (lit "if obj is not None:\n    result = obj.attribute\nelse:\n    result = default_value")
           "Check if the object is None before accessing its attributes.";
         mkFix "Hasattr Check"
           (lit "if hasattr(obj, \'attribute\'):\n    result = obj.attribute\nelse:\n    result = default_value")
           "Use hasattr() to check if an attribute exists before accessing it." ]
       [ "Always validate object state before accessing attributes";
         "Initialize objects properly in constructors";
         "Use getattr() with default values for optional attributes" ]);

    (("KeyError", "python"),
     mkRecommendation
       "A KeyError occurs when trying to access a dictionary key that doesn't exist."
       HIGH
       "This will halt execution and indicates missing data validation or incorrect key usage."
       [ mkFix "Key Check"
           (lit "if key in dictionary:\n    value = dictionary[key]\nelse:\n    value = default_value")
           "Check if the key exists in the dictionary before accessing it.";
         mkFix "Use Get Method"
           "value = dictionary.get(key, default_value)"
           "Use the get() method with a default value to safely access dictionary keys." ]
       [ "Validate dictionary keys before access";
         "Use dict.get() method for safe key access";
         "Handle missing keys gracefully with appropriate defaults" ]);

    (("RecursionError", "python"),
     mkRecommendation
       "A RecursionError occurs when the maximum recursion depth is exceeded, usually due to infinite recursion."
       HIGH
       "This will crash the program and may consume excessive memory before failing."
       [ mkFix "Add Base Case"
           (lit "def recursive_func(n):\n    if n <= 0:  # Base case\n        return 0\n    return n + recursive_func(n-1)")
           "Ensure your recursive function has a proper base case to terminate recursion.";
         mkFix "Convert to Iterative"
           (lit "def iterative_func(n):\n    result = 0\n    for i in range(1, n+1):\n        result += i\n    return result")
           "Consider converting recursive algorithms to iterative ones for large inputs." ]
       [ "Always define clear base cases for recursive functions";
         "Consider iterative solutions for large datasets";
         "Use sys.setrecursionlimit() carefully if needed" ]);

    (("RuntimeError", "python"),
     mkRecommendation
       "A RuntimeError occurred, often related to async operations or system-level issues."
       HIGH
       "This indicates improper usage of runtime features like async/await or system resources."
       [ mkFix "Proper Async Usage"
           (lit "import asyncio\n\nasync def main():\n    result = await async_function()\n    return result\n\nasyncio.run(main())")
           "Use asyncio.run() or await keyword properly for coroutines.";
         mkFix "Exception Handling"
           (lit ("try:\n    # Problematic operation\n    pass\nexcept RuntimeError as e:\n    print(f"
                   ++ dq ++ "Runtime error: {e}" ++ dq ++ ")"))
           "Handle runtime errors with specific exception catching." ]
       [ "Use proper async/await patterns for coroutines";
         "Handle system-level errors appropriately";
         "Validate runtime conditions before operations" ]);

    (("JSONDecodeError", "python"),
     mkRecommendation
       "A JSONDecodeError occurs when trying to parse invalid JSON data."
       HIGH
       "This will halt execution and indicates malformed or invalid JSON input."
       [ mkFix "Validate JSON"
           (lit ("import json\n\ntry:\n    data = json.loads(json_string)\nexcept json.JSONDecodeError as e:\n    print(f"
                   ++ dq ++ "Invalid JSON: {e}" ++ dq ++ ")\n    data = {}"))
           "Always wrap JSON parsing in try-except blocks to handle invalid data.";
         mkFix "Pre-validate Format"
           (lit ("if json_string.strip().startswith((\'{\', \'[\')):\n    data = json.loads(json_string)\nelse:\n    raise ValueError("
                   ++ dq ++ "Not valid JSON format" ++ dq ++ ")"))
           "Perform basic format validation before attempting to parse JSON." ]
       [ "Always validate JSON input before parsing";
         "Use proper exception handling for JSON operations";
         "Provide meaningful error messages for invalid JSON" ]);

    (("NullPointerException", "java"),
     mkRecommendation
       "A NullPointerException occurs when trying to use a reference that points to no location in memory (null)."
       HIGH
       "This will crash the program and may indicate improper object initialization."
       [ mkFix "Null Check"
           (lit "if (object != null) {\n    object.method();\n}")
           "Always check for null before using an object reference.";
         mkFix "Initialize Object"
           "MyObject obj = new MyObject();"
           "Ensure objects are properly initialized before use." ]
       [ "Always initialize objects before using them";
         "Use null checks when objects might be null";
         "Consider using Optional<T> in Java 8+" ]) ].

(** [self.rules] *)
Definition rules : list ((string * string) * Recommendation) :=
  PyDict.literal key_eqb rules_entries.

Definition get_recommendation (error_info : ErrorInfo) (code_info : CodeInfo)
    : option Recommendation :=
  let key := (error_type error_info, language code_info) in
  PyDict.get key_eqb rules key.

End RuleBasedSystem.

(** ** LanguageModelAnalyzer *)

Module LanguageModelAnalyzer.

Import PyStr.

Definition classification_eqb (a b : ErrorClassification) : bool :=
  match a, b with
  | SYNTAX, SYNTAX | RUNTIME, RUNTIME | LOGICAL, LOGICAL
  | SEMANTIC, SEMANTIC | UNKNOWN, UNKNOWN => true
  | _, _ => false
  end.

Definition severity_eqb (a b : ErrorSeverity) : bool :=
  match a, b with
  | CRITICAL, CRITICAL | HIGH, HIGH | MEDIUM, MEDIUM | LOW, LOW => true
  | _, _ => false
  end.

(** [d.get(k, default)] *)
Definition get_default {K V : Type} (eqb : K -> K -> bool)
    (d : list (K * V)) (k : K) (default : V) : V :=
  match PyDict.get eqb d k with
  | Some v => v
  | None => default
  end.

Definition severity_map : list (ErrorClassification * ErrorSeverity) :=
  PyDict.literal classification_eqb
  [ (SYNTAX, CRITICAL);
    (RUNTIME, HIGH);
    (LOGICAL, MEDIUM);
    (SEMANTIC, MEDIUM);
    (UNKNOWN, MEDIUM) ].

Definition _generate_explanation (error_info : ErrorInfo) (code_info : CodeInfo)
    : string :=
  let base_explanation := "A " ++ error_type error_info ++ " occurred" in
  let base_explanation :=
    if truthy_int (line_number error_info) then
      base_explanation ++ " at line " ++
        str_of_int (match line_number error_info with Some z => z | None => 0%Z end)
    else base_explanation in
  let base_explanation :=
    if intent code_info =? "loop"
    then base_explanation ++ " within a loop structure"
    else if intent code_info =? "function definition"
    then base_explanation ++ " in a function definition"
    else if intent code_info =? "variable assignment"
    then base_explanation ++ " during variable assignment"
    else base_explanation in
  let base_explanation :=
    if classification_eqb (classification error_info) RUNTIME
    then base_explanation
           ++ ". This is a runtime error that occurs during program execution"
    else if classification_eqb (classification error_info) SYNTAX
    then base_explanation
           ++ ". This is a syntax error that prevents the code from running"
    else base_explanation in
  base_explanation ++ " in " ++ language code_info ++ " code.".

Definition impact_map : list (ErrorSeverity * string) :=
  PyDict.literal severity_eqb
  [ (CRITICAL, "This will prevent the program from running entirely and must be fixed immediately.");
    (HIGH, "This will cause the program to crash and may result in data loss or unexpected behavior.");
    (MEDIUM, "This may cause incorrect results or unexpected behavior in certain conditions.");
    (LOW, "This is a minor issue that may affect code quality or performance.") ].

Definition _assess_impact (error_info : ErrorInfo) (severity : ErrorSeverity)
    : string :=
  get_default severity_eqb impact_map severity "Impact assessment unavailable.".

Definition _generate_fixes (error_info : ErrorInfo) (code_info : CodeInfo)
    : list Fix :=
  let fixes :=
    if classification_eqb (classification error_info) SYNTAX then
      [ mkFix "Fix Syntax"
          "# Check for missing colons, parentheses, or indentation issues"
          "Review the syntax around the error line for common issues." ]
    else if classification_eqb (classification error_info) RUNTIME then
      [ mkFix "Add Error Handling"
          (lit ("try:\n    # Problematic code here\nexcept Exception as e:\n    print(f"
                  ++ dq ++ "Error: {e}" ++ dq ++ ")"))
          "Wrap the problematic code in a try-except block to handle errors gracefully." ]
    else [] in
  fixes ++
  map (fun var =>
         mkFix ("Initialize " ++ var)
           (var ++ " = appropriate_initial_value")
           ("Ensure the variable " ++ dq ++ var ++ dq
              ++ " is properly defined and initialized."))
      (variables error_info).

Definition _generate_best_practices (error_info : ErrorInfo)
    (code_info : CodeInfo) : list string :=
  let practices :=
    if language code_info =? "python" then
      [ "Follow PEP 8 style guidelines for Python code";
        "Use meaningful variable names";
        "Add docstrings to functions and classes" ]
    else if language code_info =? "java" then
      [ "Follow Java naming conventions";
        "Use proper exception handling";
        "Initialize objects before use" ]
    else [] in
  practices ++
  (if classification_eqb (classification error_info) RUNTIME
   then ["Implement proper error handling and validation"]
   else if classification_eqb (classification error_info) SYNTAX
   then ["Use an IDE with syntax highlighting and error detection"]
   else []).

Definition analyze_complex_error (error_info : ErrorInfo) (code_info : CodeInfo)
    : Recommendation :=
  let severity :=
    get_default classification_eqb severity_map
      (classification error_info) MEDIUM in
  let explanation := _generate_explanation error_info code_info in
  let impact := _assess_impact error_info severity in
  let fixes := _generate_fixes error_info code_info in
  let best_practices := _generate_best_practices error_info code_info in
  mkRecommendation explanation severity impact fixes best_practices.

End LanguageModelAnalyzer.

(** ** CodeErrorRecommendationEngine *)

Module CodeErrorRecommendationEngine.

Import LanguageModelAnalyzer.

Definition reasoning_map : list (ErrorSeverity * string) :=
  PyDict.literal severity_eqb
  [ (CRITICAL, "This error prevents code execution entirely and should be addressed immediately to restore functionality.");
    (HIGH, "This error causes program crashes and may lead to data loss, making it a high priority for resolution.");
    (MEDIUM, "This error may cause incorrect behavior under certain conditions and should be addressed in the next development cycle.");
    (LOW, "This is a code quality issue that can be addressed during routine maintenance or refactoring.") ].

Definition _generate_priority_reasoning (severity : ErrorSeverity) : string :=
  get_default severity_eqb reasoning_map severity "Priority assessment unavailable.".

(** Both branches of [analyze_error] build the result the same way. *)
Definition result_of (r : Recommendation) : RecommendationResult :=
  mkRecommendationResult
    (r_explanation r) (r_severity r) (r_impact r) (r_fixes r)
    (r_best_practices r) (_generate_priority_reasoning (r_severity r)).

Definition analyze_error (code error_log : string) : pyres RecommendationResult :=
  error_info <- ErrorLogAnalyzer.analyze error_log ;;
  code_info <- StaticCodeAnalysis.analyze code error_info ;;
  let rule_recommendation :=
    RuleBasedSystem.get_recommendation error_info code_info in
  match rule_recommendation with
  | Some rec => Val (result_of rec)
  | None =>
      let lm_recommendation :=
        LanguageModelAnalyzer.analyze_complex_error error_info code_info in
      Val (result_of lm_recommendation)
  end.

(** The three lines that [format_output] appends per fix, numbered by
    [enumerate(result.proposed_fixes, 1)]. *)
Fixpoint fixes_lines (i : Z) (fixes : list Fix) : list string :=
  match fixes with
  | [] => []
  | fix_ :: rest =>
      (PyStr.nl ++ PyStr.str_of_int i ++ ". " ++ title fix_)
        :: ("   Code: " ++ code fix_)
        :: ("   Explanation: " ++ fix_explanation fix_)
        :: fixes_lines (i + 1) rest
  end.

(** The list [output] that [format_output] builds. *)
Definition report_lines (result : RecommendationResult) : list string :=
  List.app
    [ PyStr.repeat_str "=" 60;
      "CODE ERROR ANALYSIS REPORT";
      PyStr.repeat_str "=" 60;
      PyStr.nl ++ PyStr.utf8 [240; 159; 148; 141] ++ " EXPLANATION:";
      explanation result;
      PyStr.nl ++ PyStr.utf8 [226; 154; 160; 239; 184; 143] ++ "  SEVERITY: "
        ++ ErrorSeverity_value (severity result);
      PyStr.utf8 [240; 159; 147; 138] ++ " IMPACT: " ++ impact result;
      PyStr.nl ++ PyStr.utf8 [240; 159; 142; 175] ++ " PRIORITY REASONING:";
      priority_reasoning result;
      PyStr.nl ++ PyStr.utf8 [240; 159; 148; 167] ++ " PROPOSED FIXES:" ]
    (List.app
       (fixes_lines 1 (proposed_fixes result))
       (List.app
          [ PyStr.nl ++ PyStr.utf8 [240; 159; 146; 161] ++ " BEST PRACTICES:" ]
          (List.app
             (map (fun practice => PyStr.utf8 [226; 128; 162] ++ " " ++ practice)
                (best_practices result))
             [ PyStr.nl ++ PyStr.repeat_str "=" 60 ]))).

Definition format_output (result : RecommendationResult) : string :=
  PyStr.join_lines (report_lines result).

End CodeErrorRecommendationEngine.

(** ** Vocabulary of the statements

    [lines_between ls lo hi] lists, in order, the elements of [ls] whose
    0-based index [i] satisfies [lo <= i < hi]; indices outside the list
    contribute nothing. *)

Module Window.

(** The match attempt found something. *)
Definition succeeds {A : Type} (x : option A) : bool :=
  match x with
  | Some _ => true
  | None => false
  end.


Fixpoint between (i : Z) (ls : list string) (lo hi : Z) : list string :=
  match ls with
  | [] => []
  | l :: ls' =>
      (if (lo <=? i)%Z && (i <? hi)%Z then [l] else [])
        ++ between (i + 1) ls' lo hi
  end.

Definition lines_between (ls : list string) (lo hi : Z) : list string :=
  between 0 ls lo hi.

(** Whether the continuation succeeds does not depend on the captures. *)
Definition blind (k : Re.cont) : Prop :=
  forall s cur done cur' done',
    succeeds (k s cur done) = succeeds (k s cur' done').

(** The tail that the rules "SyntaxError: (.+) at line (\d+)" and
    "(\w+Error): (.+) at line (\d+)" share. *)
Definition msg_at_line : list Re.tok :=
  (Re.Open :: Re.Many Re.ADot true :: Re.Close
     :: Re.lits " at line " ++ [Re.Open; Re.Many Re.ADigit true; Re.Close])%list.

(** The line, trimmed, holds none of the block-opening keywords. *)
Definition no_keyword (line : string) : bool :=
  negb (PyStr.contains_any StaticCodeAnalysis.block_keywords (PyStr.strip line)).

(** The sentences that the impact table and the priority-reasoning table
    hold for severity Low. *)
Definition low_impact : string :=
  "This is a minor issue that may affect code quality or performance.".

Definition low_reasoning : string :=
  "This is a code quality issue that can be addressed during routine maintenance or refactoring.".

(** Where a pattern stands with respect to its groups: outside any group,
    inside a group that has consumed nothing yet, or inside a group that
    has consumed at least one character. *)
Inductive group_state : Type := Outside | InsideEmpty | InsideFilled.

Definition consume (st : group_state) : group_state :=
  match st with
  | Outside => Outside
  | InsideEmpty | InsideFilled => InsideFilled
  end.

(** Every group of the pattern consumes at least one character before it
    closes. *)
Fixpoint groups_filled (p : list Re.tok) (st : group_state) : bool :=
  match p with
  | [] => true
  | Re.One _ :: p' => groups_filled p' (consume st)
  | Re.Many _ true :: p' => groups_filled p' (consume st)
  | Re.Many _ false :: p' => groups_filled p' st
  | Re.Open :: p' => groups_filled p' InsideEmpty
  | Re.Close :: p' =>
      match st with
      | InsideEmpty => false
      | Outside | InsideFilled => groups_filled p' Outside
      end
  | Re.Eol :: p' => groups_filled p' st
  end.

(** The capture buffer agrees with the state of the pattern. *)
Definition state_ok (st : group_state) (cur : option string) : Prop :=
  match st with
  | Outside => cur = None
  | InsideEmpty => True
  | InsideFilled => cur <> Some EmptyString
  end.

Definition nonempty (s : string) : Prop := s <> EmptyString.

(** The pattern holds the literal character [x]. *)
Definition has_literal (x : ascii) (p : list Re.tok) : bool :=
  existsb (fun t => match t with
                    | Re.One (Re.AChar y) => Ascii.eqb x y
                    | _ => false
                    end) p.

(** No character of the text is accepted by the literal [x]. *)
Definition lacks (ci : bool) (x : ascii) (s : string) : bool :=
  PyStr.all_chars (fun c => negb (Re.accepts ci (Re.AChar x) c)) s.

(** The record that [analyze] builds when no rule matched, for the trimmed
    log [s] and the line number [ln]. *)
Definition unknown_record (s : string) (ln : option Z) : ErrorInfo :=
  mkErrorInfo "UnknownError" ln (ErrorLogAnalyzer._extract_variables s) s UNKNOWN.

(** What [analyze] does with the number [g] that a fallback pattern
    captured in the trimmed log [s]: the record with that line number, or
    the [ValueError] of [int] when [g] is longer than the limit. *)
Definition fallback_outcome (s g : string) : pyres ErrorInfo :=
  if (String.length g <=? PyStr.max_str_digits)%nat
  then Val (unknown_record s (Some (PyStr.digits_val 0 g)))
  else ValueError.

End Window.

(** * Properties *)

(** ** Facts about strings *)

Module PyStrFacts.

Import PyStr.

Lemma all_chars_app (f : ascii -> bool) (a b : string) :
  all_chars f (a ++ b) = all_chars f a && all_chars f b.
Proof.
  induction a as [|c a IH]; simpl; [reflexivity|].
  rewrite IH. now rewrite andb_assoc.
Qed.

Lemma all_chars_rev (f : ascii -> bool) (s : string) :
  all_chars f (rev s) = all_chars f s.
Proof.
  induction s as [|c s IH]; simpl; [reflexivity|].
  rewrite all_chars_app, IH. simpl. rewrite andb_true_r. apply andb_comm.
Qed.

Lemma rev_nonempty (s : string) : s <> EmptyString -> rev s <> EmptyString.
Proof.
  destruct s as [|c s]; [congruence|]. intros _. simpl.
  destruct (rev s); simpl; discriminate.
Qed.

Lemma isdigit_spec (s : string) :
  isdigit s = true <-> s <> EmptyString /\ all_chars is_digit_like s = true.
Proof.
  destruct s as [|c s]; simpl.
  - split; [discriminate|]. intros [H _]. congruence.
  - split; [intros H; split; [discriminate|exact H] | intros [_ H]; exact H].
Qed.

(** [int] on a non-empty string of the digits 0..9: the number it denotes,
    unless the string is longer than the limit. *)
Lemma int_decimal (s : string) :
  s <> EmptyString -> all_chars is_digit s = true ->
  int s = if (String.length s <=? max_str_digits)%nat
          then Val (digits_val 0 s) else ValueError.
Proof.
  intros Hne Hall. unfold int. destruct s as [|c s]; [congruence|].
  now rewrite Hall.
Qed.

(** What [int] returns is the number the digits denote, and [int] raises
    nothing but [ValueError]. *)
Lemma int_returns (s : string) (n : Z) :
  int s = Val n ->
  n = digits_val 0 s /\ s <> EmptyString /\ all_chars is_digit s = true /\
  (String.length s <= max_str_digits)%nat.
Proof.
  unfold int. destruct s as [|c s]; [discriminate|].
  destruct (all_chars is_digit (String c s)) eqn:Hall; [|discriminate].
  destruct (String.length (String c s) <=? max_str_digits)%nat eqn:Hlen;
    [|discriminate].
  intros [= <-]. apply Nat.leb_le in Hlen.
  split; [reflexivity|]. split; [discriminate|]. split; [reflexivity|exact Hlen].
Qed.

Lemma int_not_IndexError (s : string) : int s <> IndexError.
Proof.
  unfold int. destruct s as [|c s]; [discriminate|].
  destruct (all_chars is_digit (String c s)); [|discriminate].
  destruct (String.length (String c s) <=? max_str_digits)%nat; discriminate.
Qed.

Lemma split_lines_nonempty (s : string) : split_lines s <> [].
Proof.
  induction s as [|c s IH]; simpl; [discriminate|].
  destruct (Ascii.eqb c "010"); [discriminate|].
  destruct (split_lines s); discriminate.
Qed.

Lemma split_lines_length (s : string) : (1 <= List.length (split_lines s))%nat.
Proof.
  pose proof (split_lines_nonempty s) as H.
  destruct (split_lines s); [congruence|simpl; lia].
Qed.

Lemma prefix_app (n b : string) : prefix n (n ++ b) = true.
Proof.
  induction n as [|c n IH]; simpl; [now destruct b|].
  destruct (ascii_dec c c); [exact IH|congruence].
Qed.

Lemma contains_prefix (n s : string) : prefix n s = true -> contains n s = true.
Proof. destruct s; simpl; intros ->; reflexivity. Qed.

Lemma contains_here (n b : string) : contains n (n ++ b) = true.
Proof. apply contains_prefix, prefix_app. Qed.

(** [n in (a + n + b)] *)
Lemma contains_middle (a n b : string) : contains n (a ++ n ++ b) = true.
Proof.
  induction a as [|c a IH]; simpl.
  - apply contains_here.
  - rewrite IH. apply orb_true_r.
Qed.

End PyStrFacts.

(** ** Facts about the matcher *)

Module ReFacts.

Import PyStr Re PyStrFacts.

Lemma search_from_here (ci : bool) (p : list tok) (s : string) r :
  search_from ci p s = Some r ->
  exists s', match_here ci p s' None [] = Some r.
Proof.
  induction s as [|c s IH]; simpl.
  - destruct (match_here ci p "" None []) eqn:E; [|discriminate].
    intros [= <-]. now exists "".
  - destruct (match_here ci p (String c s) None []) eqn:E.
    + intros [= <-]. now exists (String c s).
    + exact IH.
Qed.

(** Literals outside a group leave the captures alone. *)
Lemma match_here_lits_skip (ci : bool) (l : string) (p : list tok) :
  forall s done r,
    match_here ci (lits l ++ p)%list s None done = Some r ->
    exists s', match_here ci p s' None done = Some r.
Proof.
  induction l as [|c l IH]; simpl; intros s done r H.
  - now exists s.
  - destruct s as [|x s]; [discriminate|].
    destruct (if ci then _ else _); [|discriminate].
    now apply IH in H.
Qed.

Lemma match_here_lits_groups (ci : bool) (l : string) :
  forall s done groups rest,
    match_here ci (lits l) s None done = Some (groups, rest) -> groups = done.
Proof.
  induction l as [|c l IH]; simpl; intros s done groups rest H.
  - now inversion H.
  - destruct s as [|x s]; [discriminate|].
    destruct (if ci then _ else _); [|discriminate].
    now apply IH in H.
Qed.

(** What a greedy repetition inside an open group hands to its
    continuation: a buffer that grew only by accepted characters. *)
Lemma star_inside_group (acc : ascii -> bool) (k : cont) :
  forall s b done r,
    star acc k s (Some b) done = Some r ->
    exists s' b',
      k s' (Some b') done = Some r /\
      (all_chars acc b = true -> all_chars acc b' = true) /\
      (b <> EmptyString -> b' <> EmptyString).
Proof.
  induction s as [|c s IH]; simpl; intros b done r H.
  - exists "", b. auto.
  - destruct (acc c) eqn:Hc.
    + destruct (star acc k s (Some (String c b)) done) eqn:E.
      * inversion H; subst. apply IH in E.
        destruct E as (s' & b' & Hk & Hall & Hne).
        exists s', b'. split; [exact Hk|]. split.
        -- intros Hb. apply Hall. simpl. now rewrite Hc.
        -- intros _. apply Hne. discriminate.
      * exists (String c s), b. auto.
    + exists (String c s), b. auto.
Qed.

(** A pattern made of literals around one group [(\d+)] captures exactly
    one group, and that group is a decimal number. *)
Lemma digit_group_here (ci : bool) (l1 l2 : string) (s : string) groups rest :
  match_here ci (lits l1 ++ Open :: Many ADigit true :: Close :: lits l2)%list
    s None [] = Some (groups, rest) ->
  exists g, groups = [g] /\ g <> EmptyString /\ all_chars is_digit g = true.
Proof.
  intros H. apply match_here_lits_skip in H. destruct H as (s1 & H).
  simpl in H. destruct s1 as [|c s1]; [discriminate|].
  destruct (is_digit c) eqn:Hc; [|discriminate].
  apply star_inside_group in H. destruct H as (s2 & b & H & Hall & Hne).
  simpl in H. apply match_here_lits_groups in H. subst groups.
  exists (rev b). split; [reflexivity|]. split.
  - apply rev_nonempty, Hne. discriminate.
  - rewrite all_chars_rev. apply Hall. simpl. now rewrite Hc.
Qed.

Lemma digit_group_search (l1 l2 : string) (pattern s : string) groups :
  parse pattern = (lits l1 ++ Open :: Many ADigit true :: Close :: lits l2)%list ->
  search false pattern s = Some groups ->
  exists g, groups = [g] /\ g <> EmptyString /\ all_chars is_digit g = true.
Proof.
  unfold search. intros -> H.
  destruct (search_from false _ s) as [[gs rest]|] eqn:E; [|discriminate].
  simpl in H. inversion H; subst.
  apply search_from_here in E. destruct E as (s' & E).
  now apply digit_group_here in E.
Qed.

End ReFacts.

(** ** Rules that an earlier rule always pre-empts *)

Module ShadowFacts.

Import PyStr Re PyStrFacts ReFacts Window.

Lemma lower_char_word (c : ascii) : is_word (lower_char c) = is_word c.
Proof.
  destruct c as [[] [] [] [] [] [] [] []]; reflexivity.
Qed.

Lemma all_chars_word_lower (s : string) :
  all_chars is_word (lower s) = all_chars is_word s.
Proof.
  induction s as [|c s IH]; simpl; [reflexivity|].
  now rewrite lower_char_word, IH.
Qed.

Lemma star_blind (acc : ascii -> bool) (k : cont) :
  blind k -> blind (star acc k).
Proof.
  intros Hk s. induction s as [|c s IH]; intros cur done cur' done'; simpl.
  - apply Hk.
  - destruct (acc c); [|apply Hk].
    specialize (IH (push c cur) done (push c cur') done').
    destruct (star acc k s (push c cur) done),
             (star acc k s (push c cur') done');
      simpl in IH; try discriminate; [reflexivity|apply Hk].
Qed.

Lemma match_here_blind (ci : bool) (p : list tok) : blind (match_here ci p).
Proof.
  induction p as [|t p IH]; intros s cur done cur' done'.
  - reflexivity.
  - destruct t as [a|a least_one| | |]; cbn [match_here].
    + destruct s as [|c s]; [reflexivity|].
      destruct (accepts ci a c); [apply IH|reflexivity].
    + destruct least_one.
      * destruct s as [|c s]; [reflexivity|].
        destruct (accepts ci a c); [|reflexivity].
        now apply star_blind.
      * now apply star_blind.
    + apply IH.
    + apply IH.
    + destruct s as [|c s]; [apply IH|].
      destruct (Ascii.eqb c "010"); [apply IH|reflexivity].
Qed.

(** A greedy repetition succeeds whenever some run of accepted characters
    leads to a continuation that succeeds: it backs off to that run at the
    latest. *)
Lemma star_backs_off (acc : ascii -> bool) (k : cont) (taken rest : string) :
  blind k ->
  all_chars acc taken = true ->
  succeeds (k rest None []) = true ->
  forall cur done, succeeds (star acc k (taken ++ rest) cur done) = true.
Proof.
  intros Hk. induction taken as [|c taken IH]; simpl; intros Hall Hrest cur done.
  - destruct rest as [|c rest]; simpl.
    + now rewrite (Hk _ cur done None []).
    + destruct (acc c); [|now rewrite (Hk _ cur done None [])].
      destruct (star acc k rest (push c cur) done); [reflexivity|].
      now rewrite (Hk _ cur done None []).
  - apply andb_prop in Hall. destruct Hall as [Hc Hall]. rewrite Hc.
    specialize (IH Hall Hrest (push c cur) done).
    now destruct (star acc k (taken ++ rest) (push c cur) done).
Qed.

(** Literals under [re.IGNORECASE]: what they consume equals the literal
    text up to case. *)
Lemma lits_consumed (l : string) (p : list tok) :
  forall s done r,
    match_here true (lits l ++ p)%list s None done = Some r ->
    exists pre rest,
      s = pre ++ rest /\ lower pre = lower l /\
      match_here true p rest None done = Some r.
Proof.
  induction l as [|x l IH]; simpl; intros s done r H.
  - exists "", s. auto.
  - destruct s as [|c s]; [discriminate|].
    destruct (Ascii.eqb (lower_char x) (lower_char c)) eqn:E; [|discriminate].
    apply Ascii.eqb_eq in E. apply IH in H.
    destruct H as (pre & rest & -> & Hl & H).
    exists (String c pre), rest. simpl. rewrite Hl, E. auto.
Qed.

Lemma lits_accept (l : string) (p : list tok) :
  forall pre rest cur done,
    lower pre = lower l ->
    succeeds (match_here true (lits l ++ p)%list (pre ++ rest) cur done)
      = succeeds (match_here true p rest None []).
Proof.
  induction l as [|x l IH]; intros pre rest cur done H.
  - destruct pre; [|discriminate]. simpl. apply match_here_blind.
  - destruct pre as [|c pre]; [discriminate|]. simpl in H.
    injection H as Hc Hl. simpl. rewrite Hc, Ascii.eqb_refl. now apply IH.
Qed.

Lemma search_from_succeeds (ci : bool) (p : list tok) (s : string) :
  succeeds (search_from ci p s) = true <->
  exists pre rest, s = pre ++ rest /\
                   succeeds (match_here ci p rest None []) = true.
Proof.
  induction s as [|c s IH]; simpl.
  - destruct (match_here ci p "" None []) eqn:E; simpl.
    + split; [|reflexivity]. intros _. exists "", "". now rewrite E.
    + split; [discriminate|]. intros (pre & rest & H & Hr).
      destruct pre; [|discriminate]. simpl in H. subst rest.
      now rewrite E in Hr.
  - destruct (match_here ci p (String c s) None []) eqn:E; simpl.
    + split; [|reflexivity]. intros _. exists "", (String c s). now rewrite E.
    + rewrite IH. split.
      * intros (pre & rest & -> & Hr). now exists (String c pre), rest.
      * intros (pre & rest & H & Hr). destruct pre as [|x pre]; simpl in H.
        -- subst rest. now rewrite E in Hr.
        -- injection H as _ ->. now exists pre, rest.
Qed.

Lemma syntax_rule_shape :
  parse "SyntaxError: (.+) at line (\d+)" =
    (lits "S" ++ lits "yntax" ++ lits "Error" ++ lits ": " ++ msg_at_line)%list /\
  parse "(\w+Error): (.+) at line (\d+)" =
    (Open :: Many AWord true
       :: lits "Error" ++ Close :: lits ": " ++ msg_at_line)%list.
Proof. split; reflexivity. Qed.

(** Wherever "SyntaxError: (.+) at line (\d+)" matches, so does
    "(\w+Error): (.+) at line (\d+)". *)
Lemma syntax_rule_implies_generic_here (s : string) :
  succeeds (match_here true (parse "SyntaxError: (.+) at line (\d+)") s None [])
    = true ->
  succeeds (match_here true (parse "(\w+Error): (.+) at line (\d+)") s None [])
    = true.
Proof.
  destruct syntax_rule_shape as [-> ->]. intros H.
  destruct (match_here true _ s None []) as [r|] eqn:E; [clear H|discriminate].
  apply lits_consumed in E. destruct E as (p1 & s1 & -> & H1 & E).
  apply lits_consumed in E. destruct E as (p2 & s2 & -> & H2 & E).
  apply lits_consumed in E. destruct E as (p3 & s3 & -> & H3 & E).
  apply lits_consumed in E. destruct E as (p4 & s4 & -> & H4 & E).
  destruct p1 as [|c1 [|? ?]]; try discriminate.
  assert (Hc1 : is_word c1 = true).
  { rewrite <- lower_char_word. simpl in H1. injection H1 as ->. reflexivity. }
  assert (Hw : all_chars is_word p2 = true).
  { rewrite <- all_chars_word_lower, H2. reflexivity. }
  cbn [match_here app]. simpl append. cbn [accepts]. rewrite Hc1.
  apply star_backs_off; [apply match_here_blind|exact Hw|].
  rewrite lits_accept by exact H3. cbn [match_here].
  rewrite (match_here_blind true _ _ _ _ None []).
  rewrite lits_accept by exact H4.
  now rewrite E.
Qed.

Lemma syntax_rule_implies_generic (s : string) :
  is_match true "SyntaxError: (.+) at line (\d+)" s = true ->
  is_match true "(\w+Error): (.+) at line (\d+)" s = true.
Proof.
  unfold is_match, search.
  assert (Hs : forall p, match option_map fst (search_from true p s) with
                         | Some _ => true
                         | None => false
                         end = succeeds (search_from true p s))
    by (intros p; now destruct (search_from true p s)).
  rewrite !Hs, !search_from_succeeds.
  intros (pre & rest & -> & H). exists pre, rest. split; [reflexivity|].
  now apply syntax_rule_implies_generic_here.
Qed.

End ShadowFacts.

(** ** ErrorLogAnalyzer *)

Module ErrorLogAnalyzerFacts.

Import PyStr Re PyStrFacts ReFacts Window ErrorLogAnalyzer.

(** The dict behind [self.error_patterns]: the literal writes two keys
    twice, so eleven rules remain, each at the place of its first
    occurrence and with the value of its last. *)
Lemma error_patterns_effective :
  map fst error_patterns =
    [ "(\w+Error): (.+) at line (\d+)";
      "(\w+Error): (.+)";
      "(\w+Exception): (.+)";
      "SyntaxError: (.+) at line (\d+)";
      "File " ++ dq ++ "(.+)" ++ dq
        ++ ", line (\d+), in (.+)\n\s*(.+)\n(\w+Error): (.+)";
      "json\.decoder\.JSONDecodeError: (.+)";
      "Exception in thread " ++ dq ++ "(.+)" ++ dq
        ++ " (\w+Exception): (.+) at (.+):(\d+)";
      "ReferenceError: (.+) is not defined";
      "TypeError: (.+)";
      "error: (.+) at line (\d+)";
      "segmentation fault" ]
  /\ map (fun rule => snd (snd rule)) error_patterns =
    [ "runtime"; "runtime"; "runtime"; "syntax"; "runtime"; "runtime";
      "runtime"; "runtime"; "runtime"; "syntax"; "runtime" ].
Proof. split; reflexivity. Qed.

Lemma error_patterns_classified :
  Forall (fun rule => exists c, ErrorClassification_of (snd (snd rule)) = Val c)
    error_patterns.
Proof.
  assert (H : forallb
                (fun rule =>
                   match ErrorClassification_of (snd (snd rule)) with
                   | Val _ => true
                   | _ => false
                   end) error_patterns = true)
    by (vm_compute; reflexivity).
  rewrite forallb_forall in H. apply Forall_forall. intros rule Hin.
  specialize (H rule Hin).
  destruct (ErrorClassification_of (snd (snd rule))); [eauto|discriminate..].
Qed.

(** The loop of [analyze] returns at the first rule that matches. *)
Lemma scan_first_match (rules : list (string * (string * string)))
    (log : string) r :
  scan rules log = Some r <->
  exists before pattern lang cls after groups,
    rules = (before ++ (pattern, (lang, cls)) :: after)%list /\
    forallb (fun rule => negb (is_match true (fst rule) log)) before = true /\
    search true pattern log = Some groups /\
    r = on_match groups cls log.
Proof.
  revert r. induction rules as [|[pattern [lang cls]] rest IH]; intros r; simpl.
  - split; [discriminate|].
    intros (before & ? & ? & ? & ? & ? & H & _). now destruct before.
  - destruct (search true pattern log) as [groups|] eqn:E.
    + split.
      * intros [= <-]. exists [], pattern, lang, cls, rest, groups. auto.
      * intros (before & p & l & c & after & gs & H & Hb & Hs & ->).
        destruct before as [|[p0 [l0 c0]] before]; simpl in *.
        -- inversion H; subst. rewrite E in Hs. now inversion Hs.
        -- inversion H; subst. unfold is_match in Hb. rewrite E in Hb.
           discriminate.
    + rewrite IH. split.
      * intros (before & p & l & c & after & gs & -> & Hb & Hs & ->).
        exists ((pattern, (lang, cls)) :: before), p, l, c, after, gs.
        simpl. unfold is_match at 1. rewrite E. auto.
      * intros (before & p & l & c & after & gs & H & Hb & Hs & ->).
        destruct before as [|[p0 [l0 c0]] before]; simpl in *.
        -- inversion H; subst. congruence.
        -- inversion H; subst. apply andb_prop in Hb. destruct Hb as [_ Hb].
           exists before, p, l, c, after, gs. auto.
Qed.

(** Two neighbouring rules that do not both match the log can be swapped. *)
Lemma scan_swap_neighbours (before after : list (string * (string * string)))
    (a b : string * (string * string)) (log : string) :
  is_match true (fst a) log && is_match true (fst b) log = false ->
  scan (before ++ b :: a :: after) log = scan (before ++ a :: b :: after) log.
Proof.
  intros H. induction before as [|[p [l c]] before IH]; simpl.
  - destruct a as [pa [la ca]], b as [pb [lb cb]]. simpl in *.
    unfold is_match in H.
    destruct (search true pa log), (search true pb log);
      try reflexivity; discriminate.
  - now rewrite IH.
Qed.

Lemma scan_unmatched (rules : list (string * (string * string))) (log : string) :
  forallb (fun rule => negb (is_match true (fst rule) log)) rules = true ->
  scan rules log = None.
Proof.
  induction rules as [|[pattern [lang cls]] rest IH]; simpl; [reflexivity|].
  unfold is_match at 1. destruct (search true pattern log); simpl.
  - discriminate.
  - exact IH.
Qed.

Lemma line_patterns_shape :
  parse "line (\d+)" = (lits "line " ++ Open :: Many ADigit true :: Close :: lits "")%list /\
  parse ":(\d+):" = (lits ":" ++ Open :: Many ADigit true :: Close :: lits ":")%list /\
  parse "at (\d+)" = (lits "at " ++ Open :: Many ADigit true :: Close :: lits "")%list.
Proof. repeat split; reflexivity. Qed.

Lemma line_pattern_group (pattern s : string) groups :
  In pattern line_patterns ->
  search false pattern s = Some groups ->
  exists g, groups = [g] /\ g <> EmptyString /\ all_chars is_digit g = true.
Proof.
  destruct line_patterns_shape as (H1 & H2 & H3).
  simpl. intros [<-|[<-|[<-|[]]]];
    eapply digit_group_search; eassumption.
Qed.

(** [_extract_line_number] tries the three patterns in order and hands the
    group of the first that matches to [int]. *)
Lemma extract_line_number_first_match (s : string) :
  _extract_line_number s =
    match search false "line (\d+)" s with
    | Some gs => n <- int (hd "" gs) ;; Val (Some n)
    | None =>
        match search false ":(\d+):" s with
        | Some gs => n <- int (hd "" gs) ;; Val (Some n)
        | None =>
            match search false "at (\d+)" s with
            | Some gs => n <- int (hd "" gs) ;; Val (Some n)
            | None => Val None
            end
        end
    end.
Proof.
  unfold _extract_line_number, line_patterns. simpl.
  destruct (search false "line (\d+)" s) as [gs|] eqn:E1.
  { apply line_pattern_group in E1; [|simpl; auto].
    now destruct E1 as (g & -> & _). }
  destruct (search false ":(\d+):" s) as [gs|] eqn:E2.
  { apply line_pattern_group in E2; [|simpl; auto].
    now destruct E2 as (g & -> & _). }
  destruct (search false "at (\d+)" s) as [gs|] eqn:E3.
  { apply line_pattern_group in E3; [|simpl; auto].
    now destruct E3 as (g & -> & _). }
  reflexivity.
Qed.

Lemma lacks_tail (ci : bool) (x c : ascii) (s : string) :
  lacks ci x (String c s) = true ->
  accepts ci (AChar x) c = false /\ lacks ci x s = true.
Proof.
  unfold lacks. cbn [all_chars]. intros H. apply andb_prop in H.
  destruct H as [H1 H2]. apply negb_true_iff in H1. auto.
Qed.

Lemma star_needs_literal (ci : bool) (x : ascii) (acc : ascii -> bool) (k : cont) :
  (forall s cur done, lacks ci x s = true -> k s cur done = None) ->
  forall s cur done, lacks ci x s = true -> star acc k s cur done = None.
Proof.
  intros Hk. induction s as [|c s IH]; intros cur done Hl; simpl.
  - now apply Hk.
  - destruct (acc c); [|now apply Hk].
    rewrite IH; [now apply Hk|]. now apply lacks_tail in Hl.
Qed.

(** A pattern that holds a literal character matches no text without it. *)
Lemma match_here_needs_literal (ci : bool) (x : ascii) (p : list tok) :
  has_literal x p = true ->
  forall s cur done, lacks ci x s = true -> match_here ci p s cur done = None.
Proof.
  induction p as [|t p IH]; [discriminate|].
  unfold has_literal. cbn [existsb]. fold (has_literal x p). intros Hp.
  assert (Hrest : has_literal x p = true ->
                  forall s cur done, lacks ci x s = true ->
                                     match_here ci p s cur done = None)
    by exact IH.
  destruct t as [a|a least_one| | |]; cbn [match_here]; intros s cur done Hl.
  - destruct s as [|c s]; [reflexivity|].
    apply lacks_tail in Hl. destruct Hl as [Hc Hl].
    destruct a as [| | | |y]; cbn [orb] in Hp.
    1-4: match goal with
         | |- context [if ?b then _ else _] =>
             destruct b; [apply Hrest; assumption|reflexivity]
         end.
    destruct (Ascii.eqb x y) eqn:E.
    + apply Ascii.eqb_eq in E. subst y. now rewrite Hc.
    + cbn [orb] in Hp.
      destruct (accepts ci (AChar y) c); [apply Hrest; assumption|reflexivity].
  - cbn [orb] in Hp. destruct least_one.
    + destruct s as [|c s]; [reflexivity|].
      destruct (accepts ci a c); [|reflexivity].
      apply (star_needs_literal ci x); [now apply Hrest|].
      now apply lacks_tail in Hl.
    + apply (star_needs_literal ci x); [now apply Hrest|exact Hl].
  - now apply Hrest.
  - now apply Hrest.
  - cbn [orb] in Hp. destruct s as [|c s]; [now apply Hrest|].
    destruct (Ascii.eqb c "010"); [now apply Hrest|reflexivity].
Qed.

Lemma is_match_needs_literal (ci : bool) (x : ascii) (pattern s : string) :
  has_literal x (parse pattern) = true ->
  lacks ci x s = true -> is_match ci pattern s = false.
Proof.
  intros Hp Hl. unfold is_match, search.
  assert (H : search_from ci (parse pattern) s = None); [|now rewrite H].
  induction s as [|c s IH]; cbn [search_from].
  - now rewrite (match_here_needs_literal ci x _ Hp).
  - rewrite (match_here_needs_literal ci x _ Hp) by exact Hl.
    apply IH. now apply lacks_tail in Hl.
Qed.

Lemma error_patterns_literals :
  forallb (fun rule => has_literal ":" (parse (fst rule))
                       || has_literal "g" (parse (fst rule)))
    error_patterns = true.
Proof. vm_compute. reflexivity. Qed.

(** Every declared rule holds a colon or the letter g: a log with neither
    matches none of them. *)
Lemma unmatched_without_colon_and_g (s : string) :
  lacks true ":" s = true -> lacks true "g" s = true ->
  forallb (fun rule => negb (is_match true (fst rule) s)) error_patterns = true.
Proof.
  intros Hc Hg. apply forallb_forall. intros rule Hin.
  pose proof error_patterns_literals as Hall. rewrite forallb_forall in Hall.
  specialize (Hall rule Hin). apply orb_true_iff in Hall.
  destruct Hall as [H|H].
  - now rewrite (is_match_needs_literal true ":" _ s H Hc).
  - now rewrite (is_match_needs_literal true "g" _ s H Hg).
Qed.

End ErrorLogAnalyzerFacts.

Module ErrorLogAnalyzerClaims.

Import PyStr Re PyStrFacts ReFacts Window ErrorLogAnalyzer
  ErrorLogAnalyzerFacts.

Lemma fallback_outcome_int (s g : string) :
  g <> EmptyString -> all_chars is_digit g = true ->
  (n <- int g ;; Val (unknown_record s (Some n))) = fallback_outcome s g.
Proof.
  intros Hne Hall. unfold fallback_outcome. rewrite (int_decimal g Hne Hall).
  now destruct (String.length g <=? max_str_digits)%nat.
Qed.

Lemma analyze_unmatched_unfold (log : string) :
  forallb (fun rule => negb (is_match true (fst rule) (strip log)))
    error_patterns = true ->
  analyze log =
    match search false "line (\d+)" (strip log) with
    | Some gs => n <- int (hd "" gs) ;; Val (unknown_record (strip log) (Some n))
    | None =>
        match search false ":(\d+):" (strip log) with
        | Some gs =>
            n <- int (hd "" gs) ;; Val (unknown_record (strip log) (Some n))
        | None =>
            match search false "at (\d+)" (strip log) with
            | Some gs =>
                n <- int (hd "" gs) ;; Val (unknown_record (strip log) (Some n))
            | None => Val (unknown_record (strip log) None)
            end
        end
    end.
Proof.
  intros Hnone. unfold analyze.
  rewrite (scan_unmatched _ _ Hnone), extract_line_number_first_match.
  destruct (search false "line (\d+)" (strip log)) as [g1|];
    [now destruct (int (hd "" g1))|].
  destruct (search false ":(\d+):" (strip log)) as [g2|];
    [now destruct (int (hd "" g2))|].
  destruct (search false "at (\d+)" (strip log)) as [g3|];
    [now destruct (int (hd "" g3))|reflexivity].
Qed.

(** C3 as the code has it.  For a log that none of the declared rules
    matches, [analyze] takes the number from the first of the patterns
    "line N", ":N:" and "at N" that matches the trimmed log, in this
    order.  With a number of at most 4300 digits it returns the record
    with error type "UnknownError", classification [UNKNOWN] and that line
    number; with a longer number [int] raises [ValueError] and so does
    [analyze]; when none of the three patterns matches it returns the
    record without a line number. *)
Theorem analyze_unmatched_fallback (log : string) :
  forallb (fun rule => negb (is_match true (fst rule) (strip log)))
    error_patterns = true ->
  (forall gs, search false "line (\d+)" (strip log) = Some gs ->
     exists g, gs = [g] /\ g <> "" /\ all_chars is_digit g = true /\
               analyze log = fallback_outcome (strip log) g) /\
  (search false "line (\d+)" (strip log) = None ->
   forall gs, search false ":(\d+):" (strip log) = Some gs ->
     exists g, gs = [g] /\ g <> "" /\ all_chars is_digit g = true /\
               analyze log = fallback_outcome (strip log) g) /\
  (search false "line (\d+)" (strip log) = None ->
   search false ":(\d+):" (strip log) = None ->
   forall gs, search false "at (\d+)" (strip log) = Some gs ->
     exists g, gs = [g] /\ g <> "" /\ all_chars is_digit g = true /\
               analyze log = fallback_outcome (strip log) g) /\
  (search false "line (\d+)" (strip log) = None ->
   search false ":(\d+):" (strip log) = None ->
   search false "at (\d+)" (strip log) = None ->
   analyze log = Val (unknown_record (strip log) None)).
Proof.
  intros Hnone. rewrite (analyze_unmatched_unfold log Hnone).
  set (s := strip log).
  split; [|split; [|split]].
  - intros gs E. rewrite E.
    destruct (line_pattern_group _ _ _ (or_introl eq_refl) E)
      as (g & -> & Hne & Hall).
    exists g. repeat (split; [first [reflexivity|assumption]|]).
    now apply fallback_outcome_int.
  - intros E1 gs E. rewrite E1, E.
    destruct (line_pattern_group _ _ _ (or_intror (or_introl eq_refl)) E)
      as (g & -> & Hne & Hall).
    exists g. repeat (split; [first [reflexivity|assumption]|]).
    now apply fallback_outcome_int.
  - intros E1 E2 gs E. rewrite E1, E2, E.
    destruct (line_pattern_group _ _ _
                (or_intror (or_intror (or_introl eq_refl))) E)
      as (g & -> & Hne & Hall).
    exists g. repeat (split; [first [reflexivity|assumption]|]).
    now apply fallback_outcome_int.
  - intros E1 E2 E3. now rewrite E1, E2, E3.
Qed.

Lemma analyze_unmatched_fallback_witness :
  forallb
    (fun rule =>
       negb (is_match true (fst rule)
               (strip "  build failed: see main.c:12: and retry  ")))
    error_patterns = true /\
  analyze "  build failed: see main.c:12: and retry  " =
    Val (mkErrorInfo "UnknownError" (Some 12%Z) []
           "build failed: see main.c:12: and retry" UNKNOWN).
Proof.
  assert (H : forallb
                (fun rule =>
                   negb (is_match true (fst rule)
                           (strip "  build failed: see main.c:12: and retry  ")))
                error_patterns = true) by (vm_compute; reflexivity).
  split; [exact H|].
  destruct (analyze_unmatched_fallback _ H) as (_ & H2 & _).
  destruct (H2 eq_refl [ "12" ] eq_refl) as (g & Hg & _ & _ & Ha).
  inversion Hg; subst g. rewrite Ha. vm_compute. reflexivity.
Defined.

(** C3 (counterexample): no declared rule matches the log "line " followed
    by 4301 digits, and [analyze] raises [ValueError] on it. *)
Lemma analyze_unmatched_raises :
  forallb
    (fun rule =>
       negb (is_match true (fst rule) (strip ("line " ++ repeat_str "1" 4301))))
    error_patterns = true /\
  analyze ("line " ++ repeat_str "1" 4301) = ValueError.
Proof.
  assert (H : forallb
                (fun rule =>
                   negb (is_match true (fst rule)
                           (strip ("line " ++ repeat_str "1" 4301))))
                error_patterns = true)
    by (apply unmatched_without_colon_and_g; vm_compute; reflexivity).
  split; [exact H|].
  rewrite (analyze_unmatched_unfold _ H). vm_compute. reflexivity.
Qed.

Lemma error_patterns_first :
  exists rest,
    error_patterns =
      ("(\w+Error): (.+) at line (\d+)", ("javascript", "runtime")) :: rest.
Proof. eexists. vm_compute. reflexivity. Qed.

(** One log that every declared rule matches: no two rules of the table
    are such that they can never both match the same input. *)
Lemma declared_rules_share_a_log :
  forallb
    (fun rule =>
       is_match true (fst rule)
         (lit ("File " ++ dq ++ "a.py" ++ dq ++ ", line 3, in f\n  x = 1\n"
               ++ "SyntaxError: bad at line 3\n"
               ++ "json.decoder.JSONDecodeError: x\n"
               ++ "Exception in thread " ++ dq ++ "main" ++ dq
               ++ " NullPointerException: oops at A.java:12\n"
               ++ "ReferenceError: y is not defined\n"
               ++ "TypeError: z\n"
               ++ "main.c: error: w at line 4\n"
               ++ "segmentation fault")))
    error_patterns = true.
Proof. vm_compute. reflexivity. Qed.

(** C2.  The rule "SyntaxError: <msg> at line <N>" and the generic rule
    "(\w+Error): (.+)" both match the log below.  The specific rule alone
    determines (error type, line, class) = ("invalid syntax", 3, SYNTAX);
    [analyze] returns ("SyntaxError", 3, RUNTIME), taken from the generic
    rules that [error_patterns] declares before the specific one.  For
    every log that the specific rule matches, [analyze] returns at the
    first, generic rule, so the class of a record it returns is RUNTIME
    and never the SYNTAX of the specific rule. *)
Theorem analyze_syntax_rule_shadowed :
  let log := "SyntaxError: invalid syntax at line 3" in
  (In ("SyntaxError: (.+) at line (\d+)", ("python", "syntax")) error_patterns /\
   search true "SyntaxError: (.+) at line (\d+)" (strip log)
     = Some ["invalid syntax"; "3"] /\
   on_match ["invalid syntax"; "3"] "syntax" (strip log)
     = Val (mkErrorInfo "invalid syntax" (Some 3%Z) [] log SYNTAX) /\
   search true "(\w+Error): (.+)" (strip log)
     = Some ["SyntaxError"; "invalid syntax at line 3"] /\
   analyze log = Val (mkErrorInfo "SyntaxError" (Some 3%Z) [] log RUNTIME)) /\
  (forall l,
      is_match true "SyntaxError: (.+) at line (\d+)" (strip l) = true ->
      exists groups,
        search true "(\w+Error): (.+) at line (\d+)" (strip l) = Some groups /\
        analyze l = on_match groups "runtime" (strip l) /\
        (forall info, analyze l = Val info -> classification info = RUNTIME)).
Proof.
  cbv zeta. split.
  - split.
    + vm_compute. do 3 right. left. reflexivity.
    + repeat split; vm_compute; reflexivity.
  - intros l H. apply ShadowFacts.syntax_rule_implies_generic in H.
    unfold analyze. destruct error_patterns_first as [rest ->].
    cbn [scan]. unfold is_match in H.
    destruct (search true "(\w+Error): (.+) at line (\d+)" (strip l))
      as [groups|]; [|discriminate].
    exists groups. split; [reflexivity|]. split; [reflexivity|].
    unfold on_match. intros info.
    destruct (first_line_number groups) as [ln| |]; cbn [bind];
      try discriminate.
    intros Hinfo. inversion Hinfo. reflexivity.
Qed.

End ErrorLogAnalyzerClaims.

(** ** StaticCodeAnalysis *)

Module StaticCodeAnalysisFacts.

Import PyStr PyStrFacts StaticCodeAnalysis Window.

Lemma between_firstn_skipn (ls : list string) :
  forall i lo hi,
    between i ls lo hi =
      firstn (Z.to_nat (hi - Z.max lo i)) (skipn (Z.to_nat (lo - i)) ls).
Proof.
  induction ls as [|l ls IH]; intros i lo hi; simpl.
  - now rewrite skipn_nil, firstn_nil.
  - rewrite IH.
    destruct (lo <=? i)%Z eqn:Hlo; [apply Z.leb_le in Hlo|apply Z.leb_gt in Hlo].
    + replace (Z.to_nat (lo - i)) with 0%nat by lia.
      replace (Z.to_nat (lo - (i + 1))) with 0%nat by lia. simpl.
      destruct (i <? hi)%Z eqn:Hhi; [apply Z.ltb_lt in Hhi|apply Z.ltb_ge in Hhi].
      * replace (Z.to_nat (hi - Z.max lo i))
          with (S (Z.to_nat (hi - Z.max lo (i + 1)))) by lia.
        reflexivity.
      * replace (Z.to_nat (hi - Z.max lo i)) with 0%nat by lia.
        replace (Z.to_nat (hi - Z.max lo (i + 1))) with 0%nat by lia.
        reflexivity.
    + simpl.
      replace (Z.to_nat (lo - i)) with (S (Z.to_nat (lo - (i + 1)))) by lia.
      replace (Z.max lo (i + 1)) with (Z.max lo i) by lia.
      reflexivity.
Qed.

(** A slice whose bounds already lie inside the list is the window of the
    same bounds, even when the upper bound of the window runs past the end. *)
Lemma slice_lines_between (ls : list string) (a b hi : Z) :
  (0 <= a <= Z.of_nat (List.length ls))%Z ->
  b = Z.min (Z.of_nat (List.length ls)) hi ->
  (0 <= hi)%Z ->
  slice ls a b = lines_between ls a hi.
Proof.
  intros Ha -> Hhi. unfold slice, lines_between, clip_index.
  rewrite between_firstn_skipn.
  set (len := Z.of_nat (List.length ls)) in *.
  replace (a <? 0)%Z with false by (symmetry; apply Z.ltb_ge; lia).
  replace (Z.min len hi <? 0)%Z with false by (symmetry; apply Z.ltb_ge; lia).
  replace (Z.max 0 (Z.min len a)) with a by lia.
  replace (Z.max 0 (Z.min len (Z.min len hi))) with (Z.min len hi) by lia.
  replace (a - 0)%Z with a by lia.
  replace (Z.max a 0) with a by lia.
  destruct (Z.le_gt_cases hi len) as [H|H].
  - now replace (Z.min len hi) with hi by lia.
  - replace (Z.min len hi) with len by lia.
    assert (Hlen : List.length (skipn (Z.to_nat a) ls) = Z.to_nat (len - a)).
    { rewrite length_skipn. unfold len. lia. }
    rewrite !firstn_all2; auto; rewrite Hlen; lia.
Qed.

Lemma forallb_between (P : string -> bool) (ls : list string) :
  forall i lo hi,
    forallb P (between i ls lo hi) = true <->
    (forall k x, nth_error ls k = Some x ->
       (lo <= i + Z.of_nat k < hi)%Z -> P x = true).
Proof.
  induction ls as [|l ls IH]; intros i lo hi; simpl.
  - split; [|reflexivity]. intros _ k x H. now destruct k.
  - rewrite forallb_app, andb_true_iff, IH. split.
    + intros [H0 H] k x Hk Hr. destruct k as [|k]; simpl in Hk.
      * inversion Hk; subst x.
        replace ((lo <=? i)%Z && (i <? hi)%Z) with true in H0
          by (symmetry; apply andb_true_iff; split;
              [apply Z.leb_le|apply Z.ltb_lt]; lia).
        simpl in H0. now rewrite andb_true_r in H0.
      * apply (H k x Hk). lia.
    + intros H. split.
      * destruct ((lo <=? i)%Z && (i <? hi)%Z) eqn:E; [|reflexivity].
        simpl. rewrite andb_true_r. apply (H 0%nat l eq_refl).
        apply andb_true_iff in E. destruct E as [E1 E2].
        apply Z.leb_le in E1. apply Z.ltb_lt in E2. lia.
      * intros k x Hk Hr. apply (H (S k) x Hk). lia.
Qed.

Lemma In_between (x : string) (ls : list string) :
  forall i lo hi,
    In x (between i ls lo hi) <->
    exists k, nth_error ls k = Some x /\ (lo <= i + Z.of_nat k < hi)%Z.
Proof.
  induction ls as [|l ls IH]; intros i lo hi; simpl.
  - split; [intros []|]. intros (k & H & _). now destruct k.
  - rewrite in_app_iff, IH. split.
    + intros [H|(k & Hk & Hr)].
      * destruct ((lo <=? i)%Z && (i <? hi)%Z) eqn:E; [|destruct H].
        destruct H as [<-|[]]. exists 0%nat. split; [reflexivity|].
        apply andb_true_iff in E. destruct E as [E1 E2].
        apply Z.leb_le in E1. apply Z.ltb_lt in E2. lia.
      * exists (S k). split; [exact Hk|lia].
    + intros (k & Hk & Hr). destruct k as [|k]; simpl in Hk.
      * left. inversion Hk; subst.
        replace ((lo <=? i)%Z && (i <? hi)%Z) with true; [now left|].
        symmetry. apply andb_true_iff.
        split; [apply Z.leb_le|apply Z.ltb_lt]; lia.
      * right. exists k. split; [exact Hk|lia].
Qed.

Lemma between_length (ls : list string) (i lo hi : Z) :
  (Z.of_nat (List.length (between i ls lo hi)) <= Z.max 0 (hi - lo))%Z.
Proof.
  rewrite between_firstn_skipn.
  pose proof (firstn_le_length (Z.to_nat (hi - Z.max lo i))
                (skipn (Z.to_nat (lo - i)) ls)).
  lia.
Qed.

Lemma scan_back_unfold (ls : list string) (i : nat) :
  scan_back ls i =
    match nth_error ls i with
    | None => IndexError
    | Some line =>
        if contains_any block_keywords (strip line) then Val (Some i)
        else match i with
             | O => Val None
             | S j => scan_back ls j
             end
    end.
Proof.
  destruct i; cbn [scan_back]; unfold index;
    match goal with |- context [nth_error ?l ?k] => destruct (nth_error l k) end;
    reflexivity.
Qed.

(** The backward scan stops at the closest line at or before [i] that has
    a keyword, and runs to the end when there is none. *)
Lemma scan_back_spec (ls : list string) :
  forall i, (i < List.length ls)%nat ->
    (exists j line,
        scan_back ls i = Val (Some j) /\ (j <= i)%nat /\
        nth_error ls j = Some line /\
        contains_any block_keywords (strip line) = true /\
        forall k x, (j < k <= i)%nat -> nth_error ls k = Some x ->
                    no_keyword x = true)
    \/ (scan_back ls i = Val None /\
        forall k x, (k <= i)%nat -> nth_error ls k = Some x ->
                    no_keyword x = true).
Proof.
  induction i as [|i IH]; intros Hi; rewrite scan_back_unfold.
  - destruct (nth_error ls 0) as [line|] eqn:E;
      [|apply nth_error_None in E; lia].
    destruct (contains_any block_keywords (strip line)) eqn:Hk.
    + left. exists 0%nat, line.
      split; [reflexivity|]. split; [lia|]. split; [exact E|].
      split; [exact Hk|]. intros k x Hr. lia.
    + right. split; [reflexivity|]. intros k x Hr Hx.
      assert (k = 0%nat) by lia. subst k. rewrite E in Hx.
      inversion Hx; subst x. unfold no_keyword. now rewrite Hk.
  - destruct (nth_error ls (S i)) as [line|] eqn:E;
      [|apply nth_error_None in E; lia].
    destruct (contains_any block_keywords (strip line)) eqn:Hk.
    + left. exists (S i), line.
      split; [reflexivity|]. split; [lia|]. split; [exact E|].
      split; [exact Hk|]. intros k x Hr. lia.
    + destruct IH as [(j & lj & Hs & Hj & Hn & Hkw & Hno)|[Hs Hno]]; [lia| |].
      * left. exists j, lj.
        split; [exact Hs|]. split; [lia|]. split; [exact Hn|].
        split; [exact Hkw|]. intros k x Hr Hx.
        destruct (Nat.eq_dec k (S i)) as [->|Hne].
        -- rewrite E in Hx. inversion Hx; subst x.
           unfold no_keyword. now rewrite Hk.
        -- apply (Hno k x); [lia|exact Hx].
      * right. split; [exact Hs|]. intros k x Hr Hx.
        destruct (Nat.eq_dec k (S i)) as [->|Hne].
        -- rewrite E in Hx. inversion Hx; subst x.
           unfold no_keyword. now rewrite Hk.
        -- apply (Hno k x); [lia|exact Hx].
Qed.

Lemma scan_back_total (ls : list string) (i : nat) :
  (i < List.length ls)%nat -> exists r, scan_back ls i = Val r.
Proof.
  intros Hi. destruct (scan_back_spec ls i Hi) as [(j & l & H & _)|[H _]]; eauto.
Qed.

Lemma extract_error_lines_total (code : string) (ln : option Z) :
  exists ctx, _extract_error_lines code ln = Val ctx.
Proof.
  unfold _extract_error_lines.
  destruct (negb (truthy_int ln)).
  - unfold index. pose proof (split_lines_nonempty code).
    destruct (split_lines code); [congruence|]. simpl. eauto.
  - destruct (_ <=? _)%Z; eauto.
Qed.

Lemma identify_error_block_total (code : string) (ln : option Z) :
  exists block, _identify_error_block code ln = Val block.
Proof.
  unfold _identify_error_block.
  destruct (negb (truthy_int ln)); [eauto|].
  set (n := match ln with Some z => z | None => 0%Z end).
  destruct (n <=? Z.of_nat (List.length (split_lines code)))%Z eqn:E; [|eauto].
  apply Z.leb_le in E. pose proof (split_lines_length code) as Hlen.
  destruct (scan_back_total (split_lines code) (Z.to_nat (Z.max 0 (n - 1))))
    as [r ->]; [lia|].
  simpl. eauto.
Qed.

(** [StaticCodeAnalysis.analyze] returns a record for every input. *)
Lemma code_analyze_total (code : string) (info : ErrorInfo) :
  exists cinfo, analyze code info = Val cinfo /\
                language cinfo = _detect_language code.
Proof.
  unfold analyze.
  destruct (extract_error_lines_total code (line_number info)) as [ctx ->].
  destruct (identify_error_block_total code (line_number info)) as [blk ->].
  simpl. eauto.
Qed.

End StaticCodeAnalysisFacts.

Module StaticCodeAnalysisClaims.

Import PyStr PyStrFacts StaticCodeAnalysis Window StaticCodeAnalysisFacts.

Lemma lines_between_negative_start (ls : list string) (lo hi : Z) :
  lines_between ls (Z.max 0 lo) hi = lines_between ls lo hi.
Proof.
  unfold lines_between. rewrite !between_firstn_skipn.
  replace (Z.max (Z.max 0 lo) 0) with (Z.max lo 0) by lia.
  replace (Z.to_nat (Z.max 0 lo - 0)) with (Z.to_nat (lo - 0)) by lia.
  reflexivity.
Qed.

Lemma between_empty (ls : list string) :
  forall i lo hi, (hi <= i)%Z -> between i ls lo hi = [].
Proof.
  induction ls as [|l ls IH]; intros i lo hi H; [reflexivity|].
  cbn [between]. rewrite IH by lia.
  replace (i <? hi)%Z with false by (symmetry; apply Z.ltb_ge; lia).
  now rewrite andb_false_r.
Qed.

Lemma between_split (ls : list string) :
  forall i lo mid hi,
    (lo <= mid <= hi)%Z ->
    between i ls lo hi = (between i ls lo mid ++ between i ls mid hi)%list.
Proof.
  induction ls as [|l ls IH]; intros i lo mid hi H; [reflexivity|].
  cbn [between]. rewrite (IH (i + 1)%Z lo mid hi H).
  destruct (Z_lt_le_dec i mid) as [Hlt|Hge].
  - replace (i <? mid)%Z with true by (symmetry; apply Z.ltb_lt; lia).
    replace (i <? hi)%Z with true by (symmetry; apply Z.ltb_lt; lia).
    replace (mid <=? i)%Z with false by (symmetry; apply Z.leb_gt; lia).
    rewrite !andb_true_r. cbn [andb app].
    now rewrite <- app_assoc.
  - replace (i <? mid)%Z with false by (symmetry; apply Z.ltb_ge; lia).
    replace (lo <=? i)%Z with true by (symmetry; apply Z.leb_le; lia).
    replace (mid <=? i)%Z with true by (symmetry; apply Z.leb_le; lia).
    rewrite (between_empty ls (i + 1) lo mid) by lia.
    reflexivity.
Qed.

Lemma between_one (ls : list string) :
  forall i k,
    between i ls (i + Z.of_nat k) (i + Z.of_nat k + 1) =
      match nth_error ls k with
      | Some l => [l]
      | None => []
      end.
Proof.
  induction ls as [|l ls IH]; intros i k; [now destruct k|].
  cbn [between]. destruct k as [|k]; cbn [nth_error].
  - replace ((i + Z.of_nat 0 <=? i)%Z && (i <? i + Z.of_nat 0 + 1)%Z) with true
      by (symmetry; apply andb_true_iff;
          split; [apply Z.leb_le|apply Z.ltb_lt]; lia).
    cbn [app]. f_equal.
    pose proof (between_length ls (i + 1) (i + Z.of_nat 0) (i + Z.of_nat 0 + 1)).
    destruct (between (i + 1) ls (i + Z.of_nat 0) (i + Z.of_nat 0 + 1)) as [|x r] eqn:E;
      [reflexivity|].
    exfalso.
    assert (Hin : In x (between (i + 1) ls (i + Z.of_nat 0) (i + Z.of_nat 0 + 1)))
      by (rewrite E; now left).
    apply In_between in Hin. destruct Hin as (j & _ & Hj). lia.
  - replace ((i + Z.of_nat (S k) <=? i)%Z && (i <? i + Z.of_nat (S k) + 1)%Z)
      with false
      by (symmetry; apply andb_false_iff; left; apply Z.leb_gt; lia).
    cbn [app].
    replace (i + Z.of_nat (S k))%Z with (i + 1 + Z.of_nat k)%Z by lia.
    apply IH.
Qed.

(** C4 as the code has it.  For a 1-based line number within the source,
    the context lines are the lines of 0-based index
    [lineNumber-2 <= i < lineNumber+1] that exist, in order: the line
    before the failure line, the failure line and the line after it, three
    lines at most.  Without a line number they are the first source line
    alone. *)
Theorem extract_error_lines_window (code : string) (n : Z) :
  (1 <= n <= Z.of_nat (List.length (split_lines code)))%Z ->
  _extract_error_lines code (Some n)
    = Val (lines_between (split_lines code) (n - 2) (n + 1)) /\
  (exists before line after,
      nth_error (split_lines code) (Z.to_nat (n - 1)) = Some line /\
      before = (if (2 <=? n)%Z
                then match nth_error (split_lines code) (Z.to_nat (n - 2)) with
                     | Some l => [l]
                     | None => []
                     end
                else []) /\
      after = match nth_error (split_lines code) (Z.to_nat n) with
              | Some l => [l]
              | None => []
              end /\
      _extract_error_lines code (Some n) = Val (before ++ line :: after)%list) /\
  exists first rest,
    split_lines code = first :: rest /\
    _extract_error_lines code None = Val [first].
Proof.
  intros Hn.
  assert (Hwin : _extract_error_lines code (Some n)
                 = Val (lines_between (split_lines code) (n - 2) (n + 1))).
  { unfold _extract_error_lines, truthy_int.
    replace (n =? 0)%Z with false by (symmetry; apply Z.eqb_neq; lia).
    simpl negb. cbv iota.
    replace (n <=? Z.of_nat (List.length (split_lines code)))%Z with true
      by (symmetry; apply Z.leb_le; lia).
    rewrite (slice_lines_between _ _ _ (n + 1)); [|lia|reflexivity|lia].
    now rewrite lines_between_negative_start. }
  split; [exact Hwin|]. split.
  - destruct (nth_error (split_lines code) (Z.to_nat (n - 1))) as [line|] eqn:El;
      [|apply nth_error_None in El; lia].
    eexists _, line, _. split; [reflexivity|]. split; [reflexivity|].
    split; [reflexivity|]. rewrite Hwin. f_equal. unfold lines_between.
    rewrite (between_split _ 0 (n - 2) (n - 1) (n + 1)) by lia.
    rewrite (between_split _ 0 (n - 1) n (n + 1)) by lia.
    pose proof (between_one (split_lines code) 0 (Z.to_nat (n - 1))) as H1.
    replace (0 + Z.of_nat (Z.to_nat (n - 1)))%Z with (n - 1)%Z in H1 by lia.
    replace (n - 1 + 1)%Z with n in H1 by lia. rewrite H1, El.
    pose proof (between_one (split_lines code) 0 (Z.to_nat n)) as H2.
    replace (0 + Z.of_nat (Z.to_nat n))%Z with n in H2 by lia.
    rewrite H2.
    destruct (2 <=? n)%Z eqn:E2; [apply Z.leb_le in E2|apply Z.leb_gt in E2].
    + pose proof (between_one (split_lines code) 0 (Z.to_nat (n - 2))) as H0.
      replace (0 + Z.of_nat (Z.to_nat (n - 2)))%Z with (n - 2)%Z in H0 by lia.
      replace (n - 2 + 1)%Z with (n - 1)%Z in H0 by lia. now rewrite H0.
    + assert (H0 : between 0 (split_lines code) (n - 2) (n - 1) = []).
      { destruct (between 0 (split_lines code) (n - 2) (n - 1)) as [|x r] eqn:E;
          [reflexivity|]. exfalso.
        assert (Hin : In x (between 0 (split_lines code) (n - 2) (n - 1)))
          by (rewrite E; now left).
        apply In_between in Hin. destruct Hin as (j & _ & Hj). lia. }
      now rewrite H0.
  - unfold _extract_error_lines. simpl.
    pose proof (split_lines_nonempty code) as H.
    destruct (split_lines code) as [|first rest]; [congruence|].
    exists first, rest. split; reflexivity.
Qed.

Lemma extract_error_lines_window_witness :
  (1 <= 2 <= Z.of_nat (List.length
                         (split_lines (lit "a = [1]\nb = a[3]\nprint(b)\nprint(a)"))))%Z /\
  _extract_error_lines (lit "a = [1]\nb = a[3]\nprint(b)\nprint(a)") (Some 2%Z)
    = Val ["a = [1]"; "b = a[3]"; "print(b)"].
Proof.
  assert (H : (1 <= 2 <= Z.of_nat (List.length
             (split_lines (lit "a = [1]\nb = a[3]\nprint(b)\nprint(a)"))))%Z)
    by (vm_compute; split; discriminate).
  split; [exact H|].
  exact (proj1 (extract_error_lines_window
                  (lit "a = [1]\nb = a[3]\nprint(b)\nprint(a)") 2 H)).
Defined.

(** C4 (counterexample): for the five lines a, b, c, d, e and line number
    3 the context lines are b, c, d: the line a, two lines before the
    failure line c, is not among them. *)
Lemma extract_error_lines_one_line_before :
  nth_error (split_lines (lit "a\nb\nc\nd\ne")) 0 = Some "a" /\
  nth_error (split_lines (lit "a\nb\nc\nd\ne")) 2 = Some "c" /\
  _extract_error_lines (lit "a\nb\nc\nd\ne") (Some 3%Z) = Val ["b"; "c"; "d"] /\
  Val ["b"; "c"; "d"] <> Val ["a"; "b"; "c"; "d"].
Proof. repeat split; try (vm_compute; reflexivity). discriminate. Qed.

(** C7.  A line number greater than the number of source lines does not
    make [analyze] raise: the context lines are empty and the error block
    is the whole source text. *)
Theorem analyze_line_beyond_end (code : string) (info : ErrorInfo) (n : Z) :
  line_number info = Some n ->
  (Z.of_nat (List.length (split_lines code)) < n)%Z ->
  exists cinfo,
    analyze code info = Val cinfo /\
    error_lines cinfo = [] /\
    error_block cinfo = code.
Proof.
  intros Hln Hn. unfold analyze, _extract_error_lines, _identify_error_block.
  rewrite Hln. unfold truthy_int.
  replace (n =? 0)%Z with false by (symmetry; apply Z.eqb_neq; lia).
  simpl negb. cbv iota.
  replace (n <=? Z.of_nat (List.length (split_lines code)))%Z with false
    by (symmetry; apply Z.leb_gt; lia).
  cbn [bind]. eexists. split; [reflexivity|]. split; reflexivity.
Qed.

Lemma analyze_line_beyond_end_witness :
  exists cinfo,
    analyze (lit "x = 1\ny = 2") (mkErrorInfo "ValueError" (Some 9%Z) [] "" RUNTIME)
      = Val cinfo /\
    error_lines cinfo = [] /\
    error_block cinfo = lit "x = 1\ny = 2".
Proof.
  apply (analyze_line_beyond_end (lit "x = 1\ny = 2")
           (mkErrorInfo "ValueError" (Some 9%Z) [] "" RUNTIME) 9).
  - reflexivity.
  - vm_compute. reflexivity.
Defined.

(** C9.  The classifier can produce line number 0, and the code analysis
    treats 0 like an absent line number: the context lines are the first
    source line alone and the error block is the first 200 characters of
    the source. *)
Theorem line_zero_like_absent (code : string) :
  (exists info,
      ErrorLogAnalyzer.analyze "ValueError: bad index at line 0" = Val info /\
      line_number info = Some 0%Z) /\
  (exists first rest,
      split_lines code = first :: rest /\
      _extract_error_lines code (Some 0%Z) = Val [first] /\
      _extract_error_lines code None = Val [first]) /\
  _identify_error_block code (Some 0%Z) = Val (substring 0 200 code) /\
  _identify_error_block code None = Val (substring 0 200 code) /\
  (forall et vars msg cls,
      analyze code (mkErrorInfo et (Some 0%Z) vars msg cls)
        = analyze code (mkErrorInfo et None vars msg cls)).
Proof.
  split; [|split; [|split; [|split]]].
  - eexists. split; vm_compute; reflexivity.
  - unfold _extract_error_lines. simpl.
    pose proof (split_lines_nonempty code) as H.
    destruct (split_lines code) as [|first rest]; [congruence|].
    exists first, rest. repeat split; reflexivity.
  - reflexivity.
  - reflexivity.
  - intros. reflexivity.
Qed.

(** C8.  For a 1-based line number within the source, the error block
    starts at the closest line at or before index [lineNumber-1] whose
    trimmed text holds a block-opening keyword, and at the error line
    itself when no line from there up to the top holds one; it ends before
    index [lineNumber+5], clipped to the source, and is the join of the
    lines of that window. *)
Theorem identify_error_block_scan (code : string) (n : Z) :
  (1 <= n <= Z.of_nat (List.length (split_lines code)))%Z ->
  (forall i line,
      (Z.of_nat i <= n - 1)%Z ->
      nth_error (split_lines code) i = Some line ->
      contains_any block_keywords (strip line) = true ->
      forallb no_keyword
        (lines_between (split_lines code) (Z.of_nat i + 1) n) = true ->
      _identify_error_block code (Some n)
        = Val (join_lines
                 (lines_between (split_lines code) (Z.of_nat i) (n + 5)))) /\
  (forallb no_keyword (lines_between (split_lines code) 0 n) = true ->
   _identify_error_block code (Some n)
     = Val (join_lines (lines_between (split_lines code) (n - 1) (n + 5)))).
Proof.
  intros Hn. set (ls := split_lines code) in *.
  assert (Hblock : _identify_error_block code (Some n) =
            (found <- scan_back ls (Z.to_nat (n - 1)) ;;
             Val (join_lines
                    (lines_between ls
                       (match found with
                        | Some i => Z.of_nat i
                        | None => n - 1
                        end)%Z (n + 5))))).
  { unfold _identify_error_block, truthy_int.
    replace (n =? 0)%Z with false by (symmetry; apply Z.eqb_neq; lia).
    simpl negb. cbv iota. fold ls.
    replace (n <=? Z.of_nat (List.length ls))%Z with true
      by (symmetry; apply Z.leb_le; lia).
    replace (Z.max 0 (n - 1)) with (n - 1)%Z by lia.
    destruct (scan_back_spec ls (Z.to_nat (n - 1)))
      as [(j & lj & Hs & Hj & _)|[Hs _]]; [lia| |];
      rewrite Hs; cbn [bind];
      (rewrite (slice_lines_between _ _ _ (n + 5)); [reflexivity|lia|reflexivity|lia]). }
  rewrite Hblock.
  destruct (scan_back_spec ls (Z.to_nat (n - 1)))
    as [(j & lj & Hs & Hj & Hnj & Hkj & Hno)|[Hs Hno]]; [lia| |];
    rewrite Hs; cbn [bind].
  - split.
    + intros i line Hi Hni Hki Hafter.
      assert (i = j) as ->; [|reflexivity].
      unfold lines_between in Hafter.
      pose proof (proj1 (forallb_between no_keyword ls 0 _ _) Hafter) as Hb.
      destruct (Nat.lt_trichotomy i j) as [Hlt|[Heq|Hgt]]; [|exact Heq|].
      * specialize (Hb j lj Hnj). unfold no_keyword in Hb.
        rewrite Hkj in Hb. discriminate Hb. lia.
      * specialize (Hno i line). unfold no_keyword in Hno.
        rewrite Hki in Hno. discriminate Hno; [lia|exact Hni].
    + intros Hall. unfold lines_between in Hall.
      pose proof (proj1 (forallb_between no_keyword ls 0 _ _) Hall) as Hb.
      specialize (Hb j lj Hnj). unfold no_keyword in Hb.
      rewrite Hkj in Hb. discriminate Hb. lia.
  - split.
    + intros i line Hi Hni Hki _.
      specialize (Hno i line). unfold no_keyword in Hno.
      rewrite Hki in Hno. discriminate Hno; [lia|exact Hni].
    + intros _. reflexivity.
Qed.

Lemma identify_error_block_scan_witness :
  (1 <= 3 <= Z.of_nat (List.length
       (split_lines (lit "x = 0\ndef f(a):\n    return a.b\n\nf(x)"))))%Z /\
  _identify_error_block (lit "x = 0\ndef f(a):\n    return a.b\n\nf(x)") (Some 3%Z)
    = Val (lit "def f(a):\n    return a.b\n\nf(x)") /\
  _identify_error_block (lit "x = 0\ndef f(a):\n    return a.b\n\nf(x)") (Some 1%Z)
    = Val (lit "x = 0\ndef f(a):\n    return a.b\n\nf(x)").
Proof.
  assert (H3 : (1 <= 3 <= Z.of_nat (List.length
       (split_lines (lit "x = 0\ndef f(a):\n    return a.b\n\nf(x)"))))%Z)
    by (vm_compute; split; discriminate).
  assert (H1 : (1 <= 1 <= Z.of_nat (List.length
       (split_lines (lit "x = 0\ndef f(a):\n    return a.b\n\nf(x)"))))%Z)
    by (vm_compute; split; discriminate).
  split; [exact H3|]. split.
  - apply (proj1 (identify_error_block_scan _ 3 H3) 1%nat "def f(a):");
      vm_compute; try reflexivity; discriminate.
  - apply (proj2 (identify_error_block_scan _ 1 H1)). vm_compute. reflexivity.
Defined.

End StaticCodeAnalysisClaims.

(** ** Catalog, heuristic recommender and pipeline *)

Module PipelineFacts.

Import PyStr PyStrFacts RuleBasedSystem LanguageModelAnalyzer
  CodeErrorRecommendationEngine.

Lemma prefix_app_l (n s t : string) :
  prefix n s = true -> prefix n (s ++ t) = true.
Proof.
  revert s. induction n as [|c n IH]; intros s; simpl.
  - now destruct (s ++ t).
  - destruct s as [|x s]; [discriminate|]. simpl.
    destruct (ascii_dec c x); [apply IH|discriminate].
Qed.

Lemma contains_app_l (n s t : string) :
  contains n s = true -> contains n (s ++ t) = true.
Proof.
  induction s as [|c s IH]; simpl.
  - rewrite orb_false_r. intros H. apply contains_prefix.
    now apply (prefix_app_l n "" t).
  - intros H. apply orb_true_iff in H. destruct H as [H|H].
    + apply (prefix_app_l n (String c s) t) in H. simpl in H.
      now rewrite H.
    + rewrite (IH H). apply orb_true_r.
Qed.

Lemma contains_app_r (n s t : string) :
  contains n t = true -> contains n (s ++ t) = true.
Proof.
  intros H. induction s as [|c s IH]; simpl; [exact H|].
  rewrite IH. apply orb_true_r.
Qed.

(** The heuristic explanation names the error type and the language. *)
Lemma explanation_mentions (info : ErrorInfo) (cinfo : CodeInfo) :
  contains (error_type info) (_generate_explanation info cinfo) = true /\
  contains (language cinfo) (_generate_explanation info cinfo) = true.
Proof.
  unfold _generate_explanation. split.
  - apply contains_app_l.
    assert (H0 : contains (error_type info)
                   ("A " ++ error_type info ++ " occurred") = true)
      by apply contains_middle.
    repeat match goal with
           | |- context [if ?b then _ else _] => destruct b
           end;
      repeat first [exact H0 | apply contains_app_l].
  - apply contains_app_r. apply contains_middle.
Qed.

Lemma key_eqb_eq (a b : string * string) : key_eqb a b = true <-> a = b.
Proof.
  destruct a as [a1 a2], b as [b1 b2]. unfold key_eqb. simpl.
  rewrite andb_true_iff, !String.eqb_eq. split.
  - intros [-> ->]. reflexivity.
  - intros [= -> ->]. auto.
Qed.

(** The catalog literal writes no key twice. *)
Lemma rules_no_duplicate_key : rules = rules_entries.
Proof. vm_compute. reflexivity. Qed.

Lemma rules_keys :
  map fst rules =
    [ ("IndexError", "python"); ("NameError", "python");
      ("SyntaxError", "python"); ("ZeroDivisionError", "python");
      ("AttributeError", "python"); ("KeyError", "python");
      ("RecursionError", "python"); ("RuntimeError", "python");
      ("JSONDecodeError", "python"); ("NullPointerException", "java") ].
Proof. vm_compute. reflexivity. Qed.

Lemma rules_keys_NoDup : NoDup (map fst rules).
Proof.
  rewrite rules_keys.
  repeat (apply NoDup_cons; [simpl; intuition discriminate|]).
  apply NoDup_nil.
Qed.

Section DictLookup.
Context {V : Type}.
Implicit Types (d : list ((string * string) * V)).

Lemma get_In d k v : PyDict.get key_eqb d k = Some v -> In (k, v) d.
Proof.
  induction d as [|[k' v'] d IH]; simpl; [discriminate|].
  destruct (key_eqb k k') eqn:E.
  - apply key_eqb_eq in E. intros [= ->]. left. now subst.
  - intros H. right. now apply IH.
Qed.

Lemma In_get d k v :
  NoDup (map fst d) -> In (k, v) d -> PyDict.get key_eqb d k = Some v.
Proof.
  induction d as [|[k' v'] d IH]; simpl; [intros _ []|].
  intros Hnd [H|H].
  - inversion H; subst.
    now replace (key_eqb k k) with true by (symmetry; now apply key_eqb_eq).
  - inversion Hnd as [|? ? Hnotin Hnd']; subst.
    destruct (key_eqb k k') eqn:E.
    + apply key_eqb_eq in E. subst k'. exfalso. apply Hnotin.
      apply (in_map fst) in H. exact H.
    + now apply IH.
Qed.

Lemma get_None d k :
  PyDict.get key_eqb d k = None <-> ~ In k (map fst d).
Proof.
  induction d as [|[k' v'] d IH]; simpl; [tauto|].
  destruct (key_eqb k k') eqn:E.
  - apply key_eqb_eq in E. subst. split; [discriminate|]. intros H.
    exfalso. apply H. now left.
  - rewrite IH. split.
    + intros H [H'|H']; [|now apply H]. subst k'.
      assert (key_eqb k k = true) by now apply key_eqb_eq. congruence.
    + intros H H'. apply H. now right.
Qed.
End DictLookup.

(** The pipeline written as one expression: both analyses in sequence, then
    the catalog entry when there is one and the heuristic recommender
    otherwise. *)
Lemma analyze_error_unfold (code log : string) :
  analyze_error code log =
    (info <- ErrorLogAnalyzer.analyze log ;;
     cinfo <- StaticCodeAnalysis.analyze code info ;;
     Val (result_of
            match get_recommendation info cinfo with
            | Some rec => rec
            | None => analyze_complex_error info cinfo
            end)).
Proof.
  unfold analyze_error.
  destruct (ErrorLogAnalyzer.analyze log) as [info| |]; cbn [bind];
    try reflexivity.
  destruct (StaticCodeAnalysis.analyze code info) as [cinfo| |]; cbn [bind];
    try reflexivity.
  now destruct (get_recommendation info cinfo).
Qed.

(** What a run of the pipeline that returns went through. *)
Lemma analyze_error_returns (code log : string) (r : RecommendationResult) :
  analyze_error code log = Val r ->
  exists info cinfo,
    ErrorLogAnalyzer.analyze log = Val info /\
    StaticCodeAnalysis.analyze code info = Val cinfo /\
    language cinfo = StaticCodeAnalysis._detect_language code /\
    r = result_of
          match get_recommendation info cinfo with
          | Some rec => rec
          | None => analyze_complex_error info cinfo
          end.
Proof.
  rewrite analyze_error_unfold.
  destruct (ErrorLogAnalyzer.analyze log) as [info| |]; cbn [bind];
    try discriminate.
  destruct (StaticCodeAnalysisFacts.code_analyze_total code info)
    as (cinfo & Hc & Hl).
  rewrite Hc. cbn [bind]. intros [= <-]. exists info, cinfo. auto.
Qed.

Lemma severity_map_table (c : ErrorClassification) :
  get_default classification_eqb severity_map c MEDIUM =
    match c with
    | SYNTAX => CRITICAL
    | RUNTIME => HIGH
    | LOGICAL | SEMANTIC | UNKNOWN => MEDIUM
    end.
Proof. destruct c; reflexivity. Qed.

End PipelineFacts.

Module PipelineClaims.

Import PyStr PyStrFacts RuleBasedSystem LanguageModelAnalyzer
  CodeErrorRecommendationEngine Window PipelineFacts.

Lemma detect_language_loop_range (items : list (string * list string))
    (code : string) :
  In (StaticCodeAnalysis.detect_language_loop items code)
     (map fst items ++ ["unknown"]).
Proof.
  induction items as [|[lang patterns] rest IH]; simpl; [auto|].
  match goal with |- context [if ?b then _ else _] => destruct b end;
    [now left|now right].
Qed.

Lemma detect_language_range (code : string) :
  In (StaticCodeAnalysis._detect_language code)
     ["python"; "java"; "javascript"; "c"; "cpp"; "unknown"].
Proof.
  exact (detect_language_loop_range StaticCodeAnalysis.language_patterns code).
Qed.

Lemma get_recommendation_foreign_type (info : ErrorInfo) (cinfo : CodeInfo) :
  forallb (fun entry => negb (error_type info =? fst (fst entry))) rules = true ->
  get_recommendation info cinfo = None.
Proof.
  unfold get_recommendation. intros H. apply get_None. intros Hin.
  apply in_map_iff in Hin. destruct Hin as ([[et lang] rec] & Hk & Hin).
  simpl in Hk. inversion Hk; subst.
  rewrite forallb_forall in H. specialize (H _ Hin). simpl in H.
  now rewrite String.eqb_refl in H.
Qed.

(** C1 as the code has it: the log below falls to the heuristic path with
    every code, since no catalog entry is keyed by its error type; the
    generic rule "(\w+Error): (.+)" classifies it as a runtime error, so
    the severity is High, and the explanation names the error type and the
    detected (or "unknown") language. *)
Theorem custom_weird_error_heuristic (code : string) :
  exists info cinfo r,
    ErrorLogAnalyzer.analyze "CustomWeirdError: something broke" = Val info /\
    StaticCodeAnalysis.analyze code info = Val cinfo /\
    get_recommendation info cinfo = None /\
    analyze_error code "CustomWeirdError: something broke" = Val r /\
    r = result_of (analyze_complex_error info cinfo) /\
    classification info = RUNTIME /\
    severity r = HIGH /\
    contains "CustomWeirdError" (explanation r) = true /\
    In (language cinfo) ["python"; "java"; "javascript"; "c"; "cpp"; "unknown"] /\
    contains (language cinfo) (explanation r) = true.
Proof.
  assert (Hi : ErrorLogAnalyzer.analyze "CustomWeirdError: something broke"
               = Val (mkErrorInfo "CustomWeirdError" None []
                        "CustomWeirdError: something broke" RUNTIME))
    by (vm_compute; reflexivity).
  set (info := mkErrorInfo "CustomWeirdError" None []
                 "CustomWeirdError: something broke" RUNTIME) in *.
  destruct (StaticCodeAnalysisFacts.code_analyze_total code info)
    as (cinfo & Hc & Hl).
  assert (Hnone : get_recommendation info cinfo = None).
  { apply get_recommendation_foreign_type. vm_compute. reflexivity. }
  exists info, cinfo, (result_of (analyze_complex_error info cinfo)).
  destruct (explanation_mentions info cinfo) as [He Hlang].
  split; [exact Hi|]. split; [exact Hc|]. split; [exact Hnone|]. split.
  { rewrite analyze_error_unfold, Hi. cbn [bind]. rewrite Hc. cbn [bind].
    now rewrite Hnone. }
  split; [reflexivity|]. split; [reflexivity|]. split; [reflexivity|].
  split; [exact He|]. split; [|exact Hlang].
  rewrite Hl. apply detect_language_range.
Qed.

(** C1 (counterexample): with the code "x = 1" the pipeline takes the
    heuristic path for this log and the severity is High, not Medium. *)
Lemma custom_weird_error_not_medium :
  exists info cinfo r,
    ErrorLogAnalyzer.analyze "CustomWeirdError: something broke" = Val info /\
    StaticCodeAnalysis.analyze "x = 1" info = Val cinfo /\
    get_recommendation info cinfo = None /\
    analyze_error "x = 1" "CustomWeirdError: something broke" = Val r /\
    severity r = HIGH /\
    severity r <> MEDIUM.
Proof.
  do 3 eexists. repeat split; try (vm_compute; reflexivity).
  vm_compute. discriminate.
Qed.

(** C5.  The catalog is looked up by the exact pair (error type,
    language): the lookup returns an entry exactly when the pair is a key
    of the table, and then the pipeline copies explanation, severity,
    impact, fixes and best practices from the entry; for every other pair
    the lookup returns nothing and the pipeline returns what the heuristic
    recommender produces. *)
Theorem catalog_lookup_exact_key (code log : string)
    (info : ErrorInfo) (cinfo : CodeInfo) :
  ErrorLogAnalyzer.analyze log = Val info ->
  StaticCodeAnalysis.analyze code info = Val cinfo ->
  (forall t, get_recommendation info cinfo = Some t <->
             In ((error_type info, language cinfo), t) rules) /\
  (get_recommendation info cinfo = None <->
   ~ In (error_type info, language cinfo) (map fst rules)) /\
  (get_recommendation info cinfo = None ->
   analyze_error code log = Val (result_of (analyze_complex_error info cinfo))) /\
  (forall t, get_recommendation info cinfo = Some t ->
     analyze_error code log =
       Val (mkRecommendationResult
              (r_explanation t) (r_severity t) (r_impact t) (r_fixes t)
              (r_best_practices t)
              (_generate_priority_reasoning (r_severity t)))).
Proof.
  intros Hi Hc.
  assert (Hrun : analyze_error code log =
            match get_recommendation info cinfo with
            | Some rec => Val (result_of rec)
            | None => Val (result_of (analyze_complex_error info cinfo))
            end).
  { unfold analyze_error. rewrite Hi. cbn [bind]. rewrite Hc. reflexivity. }
  split; [|split; [|split]].
  - intros t. unfold get_recommendation. split.
    + apply get_In.
    + apply In_get, rules_keys_NoDup.
  - unfold get_recommendation. apply get_None.
  - intros H. now rewrite Hrun, H.
  - intros t H. now rewrite Hrun, H.
Qed.

Lemma catalog_lookup_exact_key_witness :
  ErrorLogAnalyzer.analyze "ZeroDivisionError: division by zero"
    = Val (mkErrorInfo "ZeroDivisionError" None []
             "ZeroDivisionError: division by zero" RUNTIME) /\
  StaticCodeAnalysis.analyze "print(1 / 0)"
      (mkErrorInfo "ZeroDivisionError" None []
         "ZeroDivisionError: division by zero" RUNTIME)
    = Val (mkCodeInfo "python" "print(1 / 0)" ["print(1 / 0)"] "code execution") /\
  exists t,
    In (("ZeroDivisionError", "python"), t) rules /\
    analyze_error "print(1 / 0)" "ZeroDivisionError: division by zero" =
      Val (mkRecommendationResult
             (r_explanation t) (r_severity t) (r_impact t) (r_fixes t)
             (r_best_practices t)
             (_generate_priority_reasoning (r_severity t))).
Proof.
  assert (Hi : ErrorLogAnalyzer.analyze "ZeroDivisionError: division by zero"
               = Val (mkErrorInfo "ZeroDivisionError" None []
                        "ZeroDivisionError: division by zero" RUNTIME))
    by (vm_compute; reflexivity).
  assert (Hc : StaticCodeAnalysis.analyze "print(1 / 0)"
                 (mkErrorInfo "ZeroDivisionError" None []
                    "ZeroDivisionError: division by zero" RUNTIME)
               = Val (mkCodeInfo "python" "print(1 / 0)" ["print(1 / 0)"]
                        "code execution"))
    by (vm_compute; reflexivity).
  split; [exact Hi|]. split; [exact Hc|].
  destruct (catalog_lookup_exact_key _ _ _ _ Hi Hc) as (Hkey & _ & _ & Hhit).
  destruct (get_recommendation
              (mkErrorInfo "ZeroDivisionError" None []
                 "ZeroDivisionError: division by zero" RUNTIME)
              (mkCodeInfo "python" "print(1 / 0)" ["print(1 / 0)"]
                 "code execution")) as [t|] eqn:E.
  - exists t. split; [apply (proj1 (Hkey t) eq_refl)|apply (Hhit t eq_refl)].
  - vm_compute in E. discriminate E.
Defined.

(** C6.  On the heuristic path the severity depends on the classification
    alone, by the table Syntax to Critical, Runtime to High, and Logical,
    Semantic and Unknown to Medium; on both paths the priority reasoning
    of a result is the fixed sentence of its severity, each of the four
    severities having a sentence of its own. *)
Theorem severity_and_reasoning_tables :
  (forall info cinfo,
      r_severity (analyze_complex_error info cinfo) =
        match classification info with
        | SYNTAX => CRITICAL
        | RUNTIME => HIGH
        | LOGICAL => MEDIUM
        | SEMANTIC => MEDIUM
        | UNKNOWN => MEDIUM
        end) /\
  (_generate_priority_reasoning CRITICAL = "This error prevents code execution entirely and should be addressed immediately to restore functionality." /\
   _generate_priority_reasoning HIGH = "This error causes program crashes and may lead to data loss, making it a high priority for resolution." /\
   _generate_priority_reasoning MEDIUM = "This error may cause incorrect behavior under certain conditions and should be addressed in the next development cycle." /\
   _generate_priority_reasoning LOW = "This is a code quality issue that can be addressed during routine maintenance or refactoring.") /\
  (forall s1 s2,
      _generate_priority_reasoning s1 = _generate_priority_reasoning s2 ->
      s1 = s2) /\
  (forall code log r,
      analyze_error code log = Val r ->
      priority_reasoning r = _generate_priority_reasoning (severity r) /\
      exists info cinfo,
        ErrorLogAnalyzer.analyze log = Val info /\
        StaticCodeAnalysis.analyze code info = Val cinfo /\
        (get_recommendation info cinfo = None ->
         severity r =
           match classification info with
           | SYNTAX => CRITICAL
           | RUNTIME => HIGH
           | LOGICAL => MEDIUM
           | SEMANTIC => MEDIUM
           | UNKNOWN => MEDIUM
           end)).
Proof.
  split; [|split; [|split]].
  - intros info cinfo. unfold analyze_complex_error. cbn [r_severity].
    apply severity_map_table.
  - repeat split; reflexivity.
  - intros s1 s2. destruct s1, s2; vm_compute; congruence.
  - intros code log r Hr.
    apply analyze_error_returns in Hr.
    destruct Hr as (info & cinfo & Hi & Hc & _ & ->).
    split; [reflexivity|]. exists info, cinfo.
    split; [exact Hi|]. split; [exact Hc|].
    intros ->. unfold result_of, analyze_complex_error.
    cbn [severity r_severity]. apply severity_map_table.
Qed.

Lemma rules_never_low :
  Forall (fun entry => r_severity (snd entry) <> LOW /\
                       r_impact (snd entry) <> low_impact) rules.
Proof.
  rewrite rules_no_duplicate_key. unfold rules_entries, low_impact.
  repeat (apply Forall_cons; [split; cbn [snd r_severity r_impact]; discriminate|]).
  apply Forall_nil.
Qed.

(** C10.  Every result that the pipeline returns has severity Critical,
    High or Medium: no catalog entry and no classification gives Low, so
    neither the Low impact sentence nor the Low priority-reasoning
    sentence appears in a result. *)
Theorem pipeline_severity_never_low (code log : string)
    (r : RecommendationResult) :
  analyze_error code log = Val r ->
  (severity r = CRITICAL \/ severity r = HIGH \/ severity r = MEDIUM) /\
  impact r <> "This is a minor issue that may affect code quality or performance." /\
  priority_reasoning r <> "This is a code quality issue that can be addressed during routine maintenance or refactoring.".
Proof.
  intros Hr. apply analyze_error_returns in Hr.
  destruct Hr as (info & cinfo & _ & _ & _ & ->).
  assert (H : forall rec : Recommendation,
             r_severity rec <> LOW -> r_impact rec <> low_impact ->
             (severity (result_of rec) = CRITICAL \/
              severity (result_of rec) = HIGH \/
              severity (result_of rec) = MEDIUM) /\
             impact (result_of rec) <> low_impact /\
             priority_reasoning (result_of rec) <> low_reasoning).
  { intros rec Hs Himp. unfold result_of.
    cbn [severity impact priority_reasoning].
    destruct (r_severity rec); try congruence;
      (split; [auto|split; [exact Himp|vm_compute; discriminate]]). }
  destruct (get_recommendation info cinfo) as [rec|] eqn:E.
  - unfold get_recommendation in E. apply get_In in E.
    pose proof rules_never_low as Hall. rewrite Forall_forall in Hall.
    destruct (Hall _ E) as [Hs Himp]. now apply H.
  - apply H; unfold analyze_complex_error; cbn [r_severity r_impact];
      destruct (classification info); vm_compute; discriminate.
Qed.

Lemma pipeline_severity_never_low_witness :
  exists r,
    analyze_error "print(1 / 0)" "ZeroDivisionError: division by zero" = Val r /\
    severity r = HIGH /\
    (severity r = CRITICAL \/ severity r = HIGH \/ severity r = MEDIUM).
Proof.
  destruct (analyze_error "print(1 / 0)" "ZeroDivisionError: division by zero")
    as [r| |] eqn:E; try (vm_compute in E; discriminate E).
  exists r. split; [reflexivity|]. split.
  - vm_compute in E. inversion E. reflexivity.
  - exact (proj1 (pipeline_severity_never_low _ _ r E)).
Defined.

End PipelineClaims.

(** * Further properties *)

(** ** ErrorLogAnalyzer: what every record holds *)

Module ErrorLogAnalyzerMore.

Import PyStr Re PyStrFacts ReFacts Window ErrorLogAnalyzer ErrorLogAnalyzerFacts.

Lemma state_ok_push (st : group_state) (c : ascii) (cur : option string) :
  state_ok st cur -> state_ok st (push c cur).
Proof. destruct st, cur; simpl; congruence. Qed.

Lemma state_ok_consume (st : group_state) (c : ascii) (cur : option string) :
  state_ok st cur -> state_ok (consume st) (push c cur).
Proof. destruct st, cur; simpl; congruence. Qed.

Lemma star_groups_nonempty (acc : ascii -> bool) (k : cont) (st : group_state) :
  (forall s cur done groups rest,
      state_ok st cur -> Forall nonempty done ->
      k s cur done = Some (groups, rest) -> Forall nonempty groups) ->
  forall s cur done groups rest,
    state_ok st cur -> Forall nonempty done ->
    star acc k s cur done = Some (groups, rest) -> Forall nonempty groups.
Proof.
  intros Hk. induction s as [|c s IH]; intros cur done groups rest Hst Hd; simpl.
  - now apply Hk.
  - destruct (acc c); [|now apply Hk].
    destruct (star acc k s (push c cur) done) as [[g r]|] eqn:E.
    + intros [= <- <-]. eapply IH; [| |exact E]; auto using state_ok_push.
    + now apply Hk.
Qed.

(** A pattern whose groups all consume something captures no empty group. *)
Lemma match_here_groups_nonempty (ci : bool) (p : list tok) :
  forall st s cur done groups rest,
    groups_filled p st = true ->
    state_ok st cur -> Forall nonempty done ->
    match_here ci p s cur done = Some (groups, rest) ->
    Forall nonempty groups.
Proof.
  induction p as [|t p IH]; intros st s cur done groups rest Hwf Hst Hd.
  - simpl. now intros [= <- <-].
  - destruct t as [a|a least_one| | |]; cbn [match_here groups_filled] in *.
    + destruct s as [|c s]; [discriminate|].
      destruct (accepts ci a c); [|discriminate].
      apply (IH (consume st)); auto using state_ok_consume.
    + destruct least_one.
      * destruct s as [|c s]; [discriminate|].
        destruct (accepts ci a c); [|discriminate].
        intros H.
        eapply (star_groups_nonempty _ _ (consume st));
          [|apply state_ok_consume; exact Hst|exact Hd|exact H].
        intros s' cur' done' g' r'. now apply IH.
      * intros H.
        eapply (star_groups_nonempty _ _ st); [|exact Hst|exact Hd|exact H].
        intros s' cur' done' g' r'. now apply IH.
    + apply (IH InsideEmpty); simpl; auto.
    + destruct st; [|discriminate|].
      * simpl in Hst. subst cur. apply (IH Outside); simpl; auto.
      * apply (IH Outside); simpl; auto.
        destruct cur as [b|]; simpl; [|exact Hd].
        apply Forall_app. split; [exact Hd|].
        apply Forall_cons; [|apply Forall_nil].
        apply rev_nonempty. simpl in Hst. congruence.
    + destruct s as [|c s]; [now apply (IH st)|].
      destruct (Ascii.eqb c "010"); [now apply (IH st)|discriminate].
Qed.

Lemma search_groups_nonempty (ci : bool) (pattern s : string) groups :
  groups_filled (parse pattern) Outside = true ->
  search ci pattern s = Some groups -> Forall nonempty groups.
Proof.
  unfold search. intros Hwf H.
  destruct (search_from ci (parse pattern) s) as [[gs rest]|] eqn:E;
    [|discriminate].
  simpl in H. inversion H; subst.
  apply search_from_here in E. destruct E as (s' & E).
  eapply match_here_groups_nonempty; [exact Hwf| | |exact E].
  - reflexivity.
  - apply Forall_nil.
Qed.

Lemma error_patterns_groups_filled :
  forallb (fun rule => groups_filled (parse (fst rule)) Outside) error_patterns
    = true.
Proof. vm_compute. reflexivity. Qed.

Lemma digits_val_nonneg (s : string) :
  forall acc, (0 <= acc)%Z -> (0 <= digits_val acc s)%Z.
Proof.
  induction s as [|c s IH]; intros acc Hacc; cbn [digits_val]; [exact Hacc|].
  apply IH. unfold digit_val. lia.
Qed.

Lemma first_line_number_nonneg (groups : list string) (n : Z) :
  first_line_number groups = Val (Some n) -> (0 <= n)%Z.
Proof.
  induction groups as [|g gs IH]; simpl; [discriminate|].
  destruct (truthy_str g && isdigit g) eqn:E; [|exact IH].
  destruct (int g) as [m| |] eqn:Hint; cbn [bind]; try discriminate.
  intros [= <-]. apply int_returns in Hint. destruct Hint as [-> _].
  now apply digits_val_nonneg.
Qed.

Lemma on_match_fields (groups : list string) (cls log : string) (info : ErrorInfo) :
  on_match groups cls log = Val info ->
  full_message info = log /\
  variables info = _extract_variables log /\
  error_type info = match groups with g :: _ => g | [] => "UnknownError" end /\
  first_line_number groups = Val (line_number info).
Proof.
  unfold on_match.
  destruct (first_line_number groups) as [ln| |]; simpl; try discriminate.
  destruct (ErrorClassification_of cls) as [c| |]; simpl; try discriminate.
  intros [= <-]. simpl. auto.
Qed.

(** X1.  Every record that [analyze] returns holds the trimmed log as its
    message and the identifiers extracted from the trimmed log; its error
    type is not empty, and its line number, when there is one, is not
    negative. *)
Theorem analyze_record_invariants (log : string) (info : ErrorInfo) :
  analyze log = Val info ->
  full_message info = strip log /\
  variables info = _extract_variables (strip log) /\
  error_type info <> "" /\
  (forall n, line_number info = Some n -> (0 <= n)%Z).
Proof.
  intros Hinfo. unfold analyze in Hinfo.
  destruct (scan error_patterns (strip log)) as [r|] eqn:E.
  - subst r. apply scan_first_match in E.
    destruct E as (before & pattern & lang & cls & after & groups
                   & Hrules & _ & Hs & Hr).
    symmetry in Hr. apply on_match_fields in Hr.
    destruct Hr as (Hm & Hv & Ht & Hl).
    split; [exact Hm|]. split; [exact Hv|]. split.
    + rewrite Ht.
      assert (Hg : Forall nonempty groups).
      { apply (search_groups_nonempty true pattern (strip log)); [|exact Hs].
        pose proof error_patterns_groups_filled as Hall.
        rewrite forallb_forall in Hall.
        apply (Hall (pattern, (lang, cls))).
        rewrite Hrules. apply in_or_app. right. now left. }
      destruct groups as [|g gs]; [discriminate|].
      now inversion Hg.
    + intros n Hn. rewrite Hn in Hl. now apply first_line_number_nonneg in Hl.
  - rewrite extract_line_number_first_match in Hinfo.
    assert (Hnn : forall g m, int g = Val m -> (0 <= m)%Z).
    { intros g m Hg. apply int_returns in Hg. destruct Hg as [-> _].
      apply digits_val_nonneg. lia. }
    destruct (search false "line (\d+)" (strip log)) as [g1|];
      [|destruct (search false ":(\d+):" (strip log)) as [g2|];
        [|destruct (search false "at (\d+)" (strip log)) as [g3|]]];
      try (match type of Hinfo with
           | context [int ?g] =>
               destruct (int g) as [m| |] eqn:Hint; cbn [bind] in Hinfo;
               try discriminate; apply Hnn in Hint
           end);
      cbn [bind] in Hinfo; inversion Hinfo; subst info; cbn;
      (split; [reflexivity|]); (split; [reflexivity|]);
      (split; [discriminate|]); intros n Hn; inversion Hn; subst; auto.
Qed.

Lemma analyze_record_invariants_witness :
  exists info,
    analyze "  KeyError: 'user' at line 7 " = Val info /\
    full_message info = "KeyError: 'user' at line 7" /\
    error_type info <> "" /\
    (forall n, line_number info = Some n -> (0 <= n)%Z).
Proof.
  destruct (analyze "  KeyError: 'user' at line 7 ") as [info| |] eqn:E;
    try (vm_compute in E; discriminate E).
  exists info. split; [reflexivity|].
  destruct (analyze_record_invariants _ info E) as (Hm & _ & Ht & Hl).
  split; [rewrite Hm; vm_compute; reflexivity|]. split; [exact Ht|exact Hl].
Defined.

End ErrorLogAnalyzerMore.

(** ** ErrorLogAnalyzer: trimming, the rule loop and the identifiers *)

Module ErrorLogAnalyzerMore2.

Import PyStr Re PyStrFacts ReFacts Window ErrorLogAnalyzer ErrorLogAnalyzerFacts.

Lemma str_app_assoc (a b c : string) : (a ++ b) ++ c = a ++ b ++ c.
Proof. induction a as [|x a IH]; simpl; [reflexivity|now rewrite IH]. Qed.

Lemma str_app_nil_r (a : string) : a ++ "" = a.
Proof. induction a as [|x a IH]; simpl; [reflexivity|now rewrite IH]. Qed.

Lemma rev_app (a b : string) : rev (a ++ b) = rev b ++ rev a.
Proof.
  induction a as [|x a IH]; simpl.
  - now rewrite str_app_nil_r.
  - now rewrite IH, str_app_assoc.
Qed.

Lemma rev_involutive (a : string) : rev (rev a) = a.
Proof.
  induction a as [|x a IH]; simpl; [reflexivity|].
  now rewrite rev_app, IH.
Qed.

Lemma lstrip_idempotent (s : string) : lstrip (lstrip s) = lstrip s.
Proof.
  induction s as [|c s IH]; simpl; [reflexivity|].
  destruct (is_space c) eqn:E; [exact IH|]. simpl. now rewrite E.
Qed.

Lemma lstrip_head (s : string) :
  lstrip s = "" \/ exists c t, lstrip s = String c t /\ is_space c = false.
Proof.
  induction s as [|c s IH]; simpl; [now left|].
  destruct (is_space c) eqn:E; [exact IH|]. right. eauto.
Qed.

Lemma lstrip_keeps_last (x : string) (c : ascii) :
  is_space c = false ->
  exists y, lstrip (x ++ String c "") = y ++ String c "".
Proof.
  intros Hc. induction x as [|d x IH]; simpl.
  - rewrite Hc. now exists "".
  - destruct (is_space d); [exact IH|]. now exists (String d x).
Qed.

(** Trimming the right end of a text that starts with a non-blank leaves
    a text that starts with a non-blank. *)
Lemma lstrip_after_rstrip (s : string) :
  lstrip (rev (lstrip (rev (lstrip s)))) = rev (lstrip (rev (lstrip s))).
Proof.
  destruct (lstrip_head s) as [->|(c & t & -> & Hc)]; [reflexivity|].
  cbn [rev]. destruct (lstrip_keeps_last (rev t) c Hc) as [y ->].
  rewrite rev_app. simpl. now rewrite Hc.
Qed.

(** [strip] is idempotent. *)
Lemma strip_idempotent (s : string) : strip (strip s) = strip s.
Proof.
  unfold strip. rewrite (lstrip_after_rstrip s), rev_involutive.
  now rewrite lstrip_idempotent.
Qed.

Lemma analyze_message (log : string) (info : ErrorInfo) :
  analyze log = Val info -> full_message info = strip log.
Proof.
  unfold analyze.
  destruct (scan error_patterns (strip log)) as [r|] eqn:E.
  - intros ->. apply scan_first_match in E.
    destruct E as (? & ? & ? & cls & ? & groups & _ & _ & _ & Hr).
    symmetry in Hr. now apply ErrorLogAnalyzerMore.on_match_fields in Hr.
  - destruct (_extract_line_number (strip log)); simpl; try discriminate.
    now intros [= <-].
Qed.

(** X2.  [analyze] looks at the trimmed log only: analyzing the trimmed
    log, which is the message the record stores, gives the same record as
    analyzing the log. *)
Theorem analyze_of_trimmed (log : string) :
  analyze (strip log) = analyze log /\
  (forall info, analyze log = Val info -> analyze (full_message info) = Val info).
Proof.
  assert (H : analyze (strip log) = analyze log)
    by (unfold analyze; now rewrite strip_idempotent).
  split; [exact H|]. intros info Hi.
  now rewrite (analyze_message log info Hi), H.
Qed.

(** X4.  The loop of [analyze] never looks past the first rule that
    matches: rules that do not match the log have no influence, so the
    loop gives the same result on the table and on the sub-table of the
    rules that match; and when the trimmed log matches no rule before a
    given one and matches that one, [analyze] returns what that rule
    determines. *)
Theorem analyze_first_match_only :
  (forall rules log,
      scan rules log =
        scan (filter (fun rule => is_match true (fst rule) log) rules) log) /\
  (forall log before pattern lang cls after groups,
      error_patterns = (before ++ (pattern, (lang, cls)) :: after)%list ->
      forallb (fun rule => negb (is_match true (fst rule) (strip log))) before
        = true ->
      search true pattern (strip log) = Some groups ->
      analyze log = on_match groups cls (strip log)).
Proof.
  split.
  - intros rules log. induction rules as [|[pattern [lang cls]] rest IH];
      [reflexivity|].
    cbn [filter fst]. unfold is_match at 1.
    destruct (search true pattern log) as [groups|] eqn:E.
    + cbn [scan]. now rewrite E.
    + cbn [scan]. now rewrite E.
  - intros log before pattern lang cls after groups Hrules Hb Hs.
    unfold analyze.
    assert (H : scan error_patterns (strip log)
                = Some (on_match groups cls (strip log))).
    { apply scan_first_match.
      exists before, pattern, lang, cls, after, groups. auto. }
    now rewrite H.
Qed.

(** What a greedy repetition inside an open group has consumed when its
    continuation takes over. *)
Lemma star_consumed (acc : ascii -> bool) (k : cont) :
  forall s b done r,
    star acc k s (Some b) done = Some r ->
    exists taken s',
      s = taken ++ s' /\ all_chars acc taken = true /\
      k s' (Some (rev taken ++ b)) done = Some r.
Proof.
  induction s as [|c s IH]; simpl; intros b done r H.
  - exists "", "". auto.
  - destruct (acc c) eqn:Hc.
    + destruct (star acc k s (Some (String c b)) done) eqn:E.
      * inversion H; subst. apply IH in E.
        destruct E as (taken & s' & -> & Hall & Hk).
        exists (String c taken), s'. simpl. rewrite Hc, Hall.
        rewrite str_app_assoc. auto.
      * exists "", (String c s). auto.
    + exists "", (String c s). auto.
Qed.

Lemma lits_exact (l : string) (p : list tok) :
  forall s done r,
    match_here false (lits l ++ p)%list s None done = Some r ->
    exists rest, s = l ++ rest /\ match_here false p rest None done = Some r.
Proof.
  induction l as [|x l IH]; simpl; intros s done r H.
  - now exists s.
  - destruct s as [|c s]; [discriminate|].
    destruct (Ascii.eqb x c) eqn:E; [|discriminate].
    apply Ascii.eqb_eq in E. subst c. apply IH in H.
    destruct H as (rest & -> & H). now exists rest.
Qed.

(** A pattern made of literals around one group [(\w+)], matched with
    case: the text read is the literals around the captured word. *)
Lemma word_group_here (l1 l2 : string) (s : string) groups rest :
  match_here false (lits l1 ++ Open :: Many AWord true :: Close :: lits l2)%list
    s None [] = Some (groups, rest) ->
  exists g,
    groups = [g] /\ g <> "" /\ all_chars is_word g = true /\
    s = l1 ++ g ++ l2 ++ rest.
Proof.
  intros H. apply lits_exact in H. destruct H as (s1 & -> & H).
  cbn [match_here] in H. destruct s1 as [|c s1]; [discriminate|].
  cbn [accepts] in H. destruct (is_word c) eqn:Hc; [|discriminate].
  apply star_consumed in H. destruct H as (taken & s2 & -> & Hall & H).
  cbn [match_here close_group] in H.
  rewrite <- (app_nil_r (lits l2)) in H.
  apply lits_exact in H. destruct H as (s3 & -> & H).
  cbn [match_here] in H. inversion H; subst.
  exists (String c taken). split; [|split; [discriminate|split]].
  - simpl. rewrite rev_app, rev_involutive. reflexivity.
  - simpl. now rewrite Hc.
  - reflexivity.
Qed.

Lemma findall_from_In (p : list tok) (g : string) :
  forall s skip,
    In g (findall_from p skip s) ->
    exists pre s' gs rest,
      s = pre ++ s' /\ match_here false p s' None [] = Some (g :: gs, rest).
Proof.
  assert (Hshift : forall c s,
             (exists pre s' gs rest,
                 s = pre ++ s' /\
                 match_here false p s' None [] = Some (g :: gs, rest)) ->
             exists pre s' gs rest,
               String c s = pre ++ s' /\
               match_here false p s' None [] = Some (g :: gs, rest)).
  { intros c s (pre & s' & gs & rest & -> & H).
    now exists (String c pre), s', gs, rest. }
  induction s as [|c s IH]; intros skip Hin.
  - destruct skip; simpl in Hin; [|contradiction].
    destruct (match_here false p "" None []) as [[[|g0 gs] rest]|] eqn:E;
      try contradiction.
    destruct Hin as [<-|[]]. now exists "", "", gs, rest.
  - destruct skip as [|k]; cbn [findall_from] in Hin.
    + destruct (match_here false p (String c s) None [])
        as [[[|g0 gs] rest]|] eqn:E.
      * apply Hshift. now apply (IH 0%nat).
      * destruct Hin as [<-|Hin].
        -- now exists "", (String c s), gs, rest.
        -- apply Hshift. now apply (IH _ Hin).
      * apply Hshift. now apply (IH 0%nat).
    + apply Hshift. now apply (IH k).
Qed.

Lemma dedup_spec (xs : list string) :
  forall seen,
    NoDup (dedup seen xs) /\
    (forall x, In x (dedup seen xs) <-> In x xs /\ ~ In x seen).
Proof.
  induction xs as [|x xs IH]; intros seen; simpl.
  - split; [apply NoDup_nil|]. intros y. tauto.
  - destruct (existsb (String.eqb x) seen) eqn:E.
    + apply existsb_exists in E. destruct E as (y & Hy & Hxy).
      apply String.eqb_eq in Hxy. subst y.
      destruct (IH seen) as [Hnd Hin]. split; [exact Hnd|].
      intros y. rewrite Hin. split; [tauto|].
      intros [[<-|H] Hns]; [contradiction|tauto].
    + assert (Hx : ~ In x seen).
      { intros Hx. assert (existsb (String.eqb x) seen = true); [|congruence].
        apply existsb_exists. exists x. split; [exact Hx|apply String.eqb_refl]. }
      destruct (IH (x :: seen)) as [Hnd Hin]. split.
      * apply NoDup_cons; [|exact Hnd]. rewrite Hin. simpl. tauto.
      * intros y. cbn [In]. rewrite Hin. cbn [In]. split.
        -- intros [H|[H1 H2]].
           ++ subst y. split; [now left|exact Hx].
           ++ split; [now right|]. intros Hs. apply H2. now right.
        -- intros [[H|H] Hns]; [now left|].
           destruct (string_dec x y) as [Heq|Hneq]; [now left|].
           right. split; [exact H|]. intros [H'|H']; contradiction.
Qed.

Lemma var_patterns_shape (pattern : string) :
  In pattern var_patterns ->
  exists a b,
    parse pattern =
      (lits (a ++ "'") ++ Open :: Many AWord true :: Close :: lits ("'" ++ b))%list.
Proof.
  simpl. intros [<-|[<-|[<-|[<-|[<-|[]]]]]].
  - now exists "", " is not defined".
  - now exists "", " has no attribute".
  - now exists "cannot access ", "".
  - now exists "variable ", "".
  - now exists "undefined variable ", "".
Qed.

(** X3.  The identifiers that [_extract_variables] returns are pairwise
    different; each is a non-empty run of word characters and stands in
    the log between two single quotes. *)
Theorem extract_variables_sound (error_log : string) :
  NoDup (_extract_variables error_log) /\
  (forall v, In v (_extract_variables error_log) ->
     v <> "" /\ all_chars is_word v = true /\
     contains ("'" ++ v ++ "'") error_log = true).
Proof.
  unfold _extract_variables.
  destruct (dedup_spec
              (flat_map (fun pattern => findall pattern error_log) var_patterns) [])
    as [Hnd Hin].
  split; [exact Hnd|]. intros v Hv. apply Hin in Hv. destruct Hv as [Hv _].
  apply in_flat_map in Hv. destruct Hv as (pattern & Hp & Hv).
  destruct (var_patterns_shape pattern Hp) as (a & b & Hshape).
  unfold findall in Hv. rewrite Hshape in Hv.
  apply findall_from_In in Hv.
  destruct Hv as (pre & s' & gs & rest & -> & H).
  apply word_group_here in H. destruct H as (g & Hg & Hne & Hw & ->).
  inversion Hg; subst g gs.
  split; [exact Hne|]. split; [exact Hw|].
  replace (pre ++ (a ++ "'") ++ v ++ ("'" ++ b) ++ rest)
    with ((pre ++ a) ++ ("'" ++ v ++ "'") ++ (b ++ rest)).
  - apply contains_middle.
  - repeat rewrite str_app_assoc. simpl. repeat rewrite str_app_assoc.
    reflexivity.
Qed.

Lemma scan_none (rules : list (string * (string * string))) (log : string) :
  scan rules log = None ->
  forallb (fun rule => negb (is_match true (fst rule) log)) rules = true.
Proof.
  induction rules as [|[pattern [lang cls]] rest IH]; simpl; [reflexivity|].
  unfold is_match at 1. destruct (search true pattern log); [discriminate|].
  exact IH.
Qed.

Lemma error_patterns_hints :
  forallb (fun rule => (snd (snd rule) =? "syntax") || (snd (snd rule) =? "runtime"))
    error_patterns = true.
Proof. vm_compute. reflexivity. Qed.

(** X12.  [analyze] never classifies a log as Logical or Semantic: the
    classification of a record it returns is Syntax or Runtime when some
    declared rule matches the trimmed log, and Unknown exactly when none
    does. *)
Theorem analyze_classification_range (log : string) (info : ErrorInfo) :
  analyze log = Val info ->
  (classification info = SYNTAX \/ classification info = RUNTIME \/
   classification info = UNKNOWN) /\
  (classification info = UNKNOWN <->
   forallb (fun rule => negb (is_match true (fst rule) (strip log)))
     error_patterns = true).
Proof.
  intros Hinfo. unfold analyze in Hinfo.
  destruct (scan error_patterns (strip log)) as [r|] eqn:E.
  - subst r. pose proof E as E'. apply scan_first_match in E'.
    destruct E' as (before & pattern & lang & cls & after & groups
                    & Hrules & _ & _ & Hr).
    assert (Hcls : cls = "syntax" \/ cls = "runtime").
    { pose proof error_patterns_hints as Hall. rewrite forallb_forall in Hall.
      specialize (Hall (pattern, (lang, cls))). simpl in Hall.
      assert (Hin : In (pattern, (lang, cls)) error_patterns)
        by (rewrite Hrules; apply in_or_app; right; now left).
      apply Hall in Hin. apply orb_true_iff in Hin.
      destruct Hin as [H|H]; apply String.eqb_eq in H; auto. }
    assert (Hc : classification info = SYNTAX \/ classification info = RUNTIME).
    { unfold on_match in Hr.
      destruct (first_line_number groups) as [ln| |]; simpl in Hr;
        try discriminate.
      destruct Hcls as [-> | ->]; simpl in Hr; inversion Hr; simpl; auto. }
    split; [tauto|]. split.
    + intros Hu. destruct Hc as [Hc|Hc]; rewrite Hc in Hu; discriminate.
    + intros Hn. rewrite (scan_unmatched _ _ Hn) in E. discriminate.
  - destruct (_extract_line_number (strip log)); simpl in Hinfo;
      try discriminate.
    inversion Hinfo; subst info. cbn [classification].
    split; [tauto|]. split; [|reflexivity].
    intros _. now apply scan_none.
Qed.

Lemma analyze_classification_range_witness :
  exists info,
    analyze "main.c: error: missing token at line 4" = Val info /\
    classification info = SYNTAX /\
    (classification info = SYNTAX \/ classification info = RUNTIME \/
     classification info = UNKNOWN).
Proof.
  destruct (analyze "main.c: error: missing token at line 4")
    as [info| |] eqn:E; try (vm_compute in E; discriminate E).
  exists info. split; [reflexivity|]. split.
  - vm_compute in E. inversion E. reflexivity.
  - exact (proj1 (analyze_classification_range _ info E)).
Defined.

End ErrorLogAnalyzerMore2.

(** ** StaticCodeAnalysis: language, context lines, block and intent *)

Module StaticCodeAnalysisMore.

Import PyStr Re PyStrFacts ReFacts Window StaticCodeAnalysis
  StaticCodeAnalysisFacts PipelineFacts.

Lemma lits_prefix (l : string) :
  forall s cur done,
    succeeds (match_here false (lits l) s cur done) = prefix l s.
Proof.
  induction l as [|a l IH]; intros s cur done; simpl.
  - now destruct s.
  - destruct s as [|c s]; [reflexivity|].
    destruct (Ascii.eqb a c) eqn:E.
    + apply Ascii.eqb_eq in E. subst c. rewrite IH. simpl.
      destruct (ascii_dec a a); [reflexivity|congruence].
    + simpl. destruct (ascii_dec a c) as [->|Hne]; [|reflexivity].
      rewrite Ascii.eqb_refl in E. discriminate.
Qed.

Lemma search_from_lits (l s : string) :
  succeeds (search_from false (lits l) s) = contains l s.
Proof.
  induction s as [|c s IH].
  - change (contains l "") with (prefix l "" || false).
    rewrite <- (lits_prefix l "" None []). cbn [search_from].
    destruct (match_here false (lits l) "" None []); reflexivity.
  - change (contains l (String c s))
      with (prefix l (String c s) || contains l s).
    rewrite <- (lits_prefix l (String c s) None []), <- IH.
    cbn [search_from].
    destruct (match_here false (lits l) (String c s) None []); reflexivity.
Qed.

(** A pattern without special characters matches somewhere exactly when
    the text contains it. *)
Lemma is_match_literal (pattern l s : string) :
  parse pattern = lits l -> is_match false pattern s = contains l s.
Proof.
  intros H. unfold is_match, search. rewrite H, <- search_from_lits.
  now destruct (search_from false (lits l) s).
Qed.

Lemma count_at_least_one {A : Type} (f : A -> bool) (l : list A) :
  (1 <=? List.length (filter f l))%nat = existsb f l.
Proof.
  induction l as [|x l IH]; simpl; [reflexivity|].
  destruct (f x); [reflexivity|exact IH].
Qed.

Lemma language_patterns_table :
  language_patterns =
    [ ("python", ["def\s+\w+"; "import\s+\w+"; "print\s*\("; ":\s*$"]);
      ("java", ["public\s+class"; "System\.out\.print";
                "public\s+static\s+void\s+main"]);
      ("javascript", ["function\s+\w+"; "console\.log"; "var\s+\w+"; "let\s+\w+"]);
      ("c", ["#include"; "int\s+main"; "printf"]);
      ("cpp", ["#include"; "std::"; "cout\s*<<"]) ].
Proof. reflexivity. Qed.

(** X5.  "cpp" is reported only for code that holds neither "#include"
    nor "printf" and that holds "std::" or matches [cout\s*<<]: code with
    an include directive is never reported as C++, because the C markers
    are tried first and share "#include". *)
Theorem detect_language_cpp_only_without_include (code : string) :
  _detect_language code = "cpp" ->
  contains "#include" code = false /\
  contains "printf" code = false /\
  (contains "std::" code = true \/ is_match false "cout\s*<<" code = true).
Proof.
  unfold _detect_language. rewrite language_patterns_table.
  cbn [detect_language_loop]. rewrite !count_at_least_one.
  repeat match goal with
         | |- context [if existsb ?f ?l then _ else _] =>
             let E := fresh "E" in destruct (existsb f l) eqn:E;
             [try discriminate|]
         end; try discriminate.
  intros _.
  match goal with
  | H : existsb _ ["#include"; "int\s+main"; "printf"] = false |- _ =>
      cbn [existsb] in H; apply orb_false_iff in H; destruct H as [Hi H];
      apply orb_false_iff in H; destruct H as [_ H];
      apply orb_false_iff in H; destruct H as [Hp _]
  end.
  rewrite (is_match_literal "#include" "#include" code eq_refl) in Hi.
  rewrite (is_match_literal "printf" "printf" code eq_refl) in Hp.
  split; [exact Hi|]. split; [exact Hp|].
  match goal with
  | H : existsb _ ["#include"; "std::"; "cout\s*<<"] = true |- _ =>
      cbn [existsb] in H;
      rewrite (is_match_literal "#include" "#include" code eq_refl), Hi in H;
      rewrite (is_match_literal "std::" "std::" code eq_refl) in H;
      cbn [orb] in H; rewrite orb_false_r in H;
      apply orb_true_iff in H; exact H
  end.
Qed.

Lemma detect_language_cpp_only_without_include_witness :
  _detect_language "std::cout << x;" = "cpp" /\
  contains "#include" "std::cout << x;" = false /\
  contains "printf" "std::cout << x;" = false /\
  (contains "std::" "std::cout << x;" = true \/
   is_match false "cout\s*<<" "std::cout << x;" = true).
Proof.
  split; [vm_compute; reflexivity|].
  apply (detect_language_cpp_only_without_include "std::cout << x;").
  vm_compute. reflexivity.
Defined.

Lemma extract_error_lines_in_range (code : string) (n : Z) :
  (1 <= n <= Z.of_nat (List.length (split_lines code)))%Z ->
  _extract_error_lines code (Some n)
    = Val (lines_between (split_lines code) (n - 2) (n + 1)).
Proof.
  intros Hn. unfold _extract_error_lines, truthy_int.
  replace (n =? 0)%Z with false by (symmetry; apply Z.eqb_neq; lia).
  simpl negb. cbv iota.
  replace (n <=? Z.of_nat (List.length (split_lines code)))%Z with true
    by (symmetry; apply Z.leb_le; lia).
  rewrite (slice_lines_between _ _ _ (n + 1)); [|lia|reflexivity|lia].
  unfold lines_between. rewrite !between_firstn_skipn.
  replace (Z.max (Z.max 0 (n - 2)) 0) with (Z.max (n - 2) 0) by lia.
  replace (Z.to_nat (Z.max 0 (n - 2) - 0)) with (Z.to_nat (n - 2 - 0)) by lia.
  reflexivity.
Qed.

(** X6.  For a line number that is absent or not negative, the context
    lines are at most three lines of the source; when the line number
    points into the source, the line it points at is one of them. *)
Theorem context_lines_bounded (code : string) (ln : option Z) :
  (forall n, ln = Some n -> (0 <= n)%Z) ->
  exists ctx,
    _extract_error_lines code ln = Val ctx /\
    (List.length ctx <= 3)%nat /\
    (forall l, In l ctx -> In l (split_lines code)) /\
    (forall n line,
        ln = Some n -> (1 <= n)%Z ->
        nth_error (split_lines code) (Z.to_nat (n - 1)) = Some line ->
        In line ctx).
Proof.
  intros Hnn. pose proof (split_lines_nonempty code) as Hne.
  destruct ln as [n|].
  - specialize (Hnn n eq_refl).
    destruct (Z.eq_dec n 0) as [->|Hn0].
    + unfold _extract_error_lines. simpl.
      destruct (split_lines code) as [|first rest]; [congruence|].
      exists [first]. simpl. split; [reflexivity|]. split; [lia|].
      split; [intros l [<-|[]]; now left|]. intros n line [= <-]. lia.
    + destruct (Z.le_gt_cases n (Z.of_nat (List.length (split_lines code))))
        as [Hle|Hgt].
      * rewrite extract_error_lines_in_range by lia.
        eexists. split; [reflexivity|]. unfold lines_between. split.
        { pose proof (between_length (split_lines code) 0 (n - 2) (n + 1)). lia. }
        split.
        { intros l Hl. apply In_between in Hl. destruct Hl as (k & Hk & _).
          eapply nth_error_In. exact Hk. }
        intros m line [= <-] Hm Hline. apply In_between.
        exists (Z.to_nat (n - 1)). split; [exact Hline|lia].
      * exists []. unfold _extract_error_lines, truthy_int.
        replace (n =? 0)%Z with false by (symmetry; apply Z.eqb_neq; lia).
        simpl negb. cbv iota.
        replace (n <=? Z.of_nat (List.length (split_lines code)))%Z with false
          by (symmetry; apply Z.leb_gt; lia).
        split; [reflexivity|]. split; [simpl; lia|].
        split; [intros l []|]. intros m line [= <-] Hm Hline.
        assert (Z.to_nat (n - 1) < List.length (split_lines code))%nat
          by (apply nth_error_Some; congruence).
        lia.
  - unfold _extract_error_lines. simpl.
    destruct (split_lines code) as [|first rest]; [congruence|].
    exists [first]. simpl. split; [reflexivity|]. split; [lia|].
    split; [intros l [<-|[]]; now left|]. intros n line H. discriminate H.
Qed.

Lemma context_lines_bounded_witness :
  exists ctx,
    _extract_error_lines (lit "a = [1]\nb = a[3]\nprint(b)\nprint(a)") (Some 3%Z)
      = Val ctx /\
    (List.length ctx <= 3)%nat /\ In "print(b)" ctx.
Proof.
  destruct (context_lines_bounded
              (lit "a = [1]\nb = a[3]\nprint(b)\nprint(a)") (Some 3%Z))
    as (ctx & Hc & Hlen & _ & Hin).
  - intros n [= <-]. lia.
  - exists ctx. split; [exact Hc|]. split; [exact Hlen|].
    apply (Hin 3%Z "print(b)" eq_refl); [lia|vm_compute; reflexivity].
Defined.

Lemma contains_self (x : string) : contains x x = true.
Proof. apply contains_prefix. induction x as [|c x IH]; simpl; [reflexivity|].
  destruct (ascii_dec c c); [exact IH|congruence].
Qed.

Lemma prefix_split (n s : string) :
  prefix n s = true -> exists t, s = n ++ t.
Proof.
  revert s. induction n as [|c n IH]; intros s; simpl.
  - intros _. now exists s.
  - destruct s as [|x s]; simpl; [intros H; discriminate H|].
    destruct (ascii_dec c x) as [->|]; [|intros H; discriminate H].
    intros H. apply IH in H. destruct H as [t ->]. now exists t.
Qed.

Lemma contains_split (n s : string) :
  contains n s = true -> exists a b, s = a ++ n ++ b.
Proof.
  induction s as [|c s IH]; intros H.
  - change (contains n "") with (prefix n "" || false) in H.
    rewrite orb_false_r in H. apply prefix_split in H.
    destruct H as [t H]. now exists "", t.
  - change (contains n (String c s))
      with (prefix n (String c s) || contains n s) in H.
    apply orb_true_iff in H. destruct H as [H|H].
    + apply prefix_split in H. destruct H as [t H]. now exists "", t.
    + apply IH in H. destruct H as (a & b & ->). now exists (String c a), b.
Qed.

(** Containment is transitive. *)
Lemma contains_sub (m n s : string) :
  contains n m = true -> contains m s = true -> contains n s = true.
Proof.
  intros Hnm Hms.
  apply contains_split in Hms. destruct Hms as (a & b & ->).
  apply contains_app_r, contains_app_l, Hnm.
Qed.

Lemma contains_join (l : string) (ls : list string) :
  In l ls -> contains l (join_lines ls) = true.
Proof.
  induction ls as [|x ls IH]; [intros []|].
  intros Hin. destruct ls as [|y ls].
  - destruct Hin as [<-|[]]. apply contains_self.
  - change (join_lines (x :: y :: ls)) with (x ++ nl ++ join_lines (y :: ls)).
    destruct Hin as [<-|Hin].
    + apply contains_app_l, contains_self.
    + apply contains_app_r, contains_app_r, IH, Hin.
Qed.

(** X7.  When the line number points into the source, the error block
    contains the text of the line it points at, whatever the backward scan
    finds. *)
Theorem error_block_covers_line (code : string) (n : Z) (line : string) :
  (1 <= n)%Z ->
  nth_error (split_lines code) (Z.to_nat (n - 1)) = Some line ->
  exists block,
    _identify_error_block code (Some n) = Val block /\
    contains line block = true.
Proof.
  intros Hn Hline. set (ls := split_lines code) in *.
  assert (Hlen : (Z.to_nat (n - 1) < List.length ls)%nat)
    by (apply nth_error_Some; congruence).
  unfold _identify_error_block, truthy_int.
  replace (n =? 0)%Z with false by (symmetry; apply Z.eqb_neq; lia).
  simpl negb. cbv iota. fold ls.
  replace (n <=? Z.of_nat (List.length ls))%Z with true
    by (symmetry; apply Z.leb_le; lia).
  replace (Z.max 0 (n - 1)) with (n - 1)%Z by lia.
  assert (Hcover : forall start,
             (0 <= start <= n - 1)%Z ->
             contains line
               (join_lines
                  (slice ls start (Z.min (Z.of_nat (List.length ls)) (n + 5))))
               = true).
  { intros start Hs.
    rewrite (slice_lines_between _ _ _ (n + 5)); [|lia|reflexivity|lia].
    apply contains_join. unfold lines_between. apply In_between.
    exists (Z.to_nat (n - 1)). split; [exact Hline|lia]. }
  destruct (scan_back_spec ls (Z.to_nat (n - 1)) Hlen)
    as [(j & lj & Hs & Hj & _)|[Hs _]]; rewrite Hs; cbn [bind];
    eexists; (split; [reflexivity|]); apply Hcover; lia.
Qed.

Lemma error_block_covers_line_witness :
  exists block,
    _identify_error_block (lit "x = 0\ndef f(a):\n    return a.b\n\nf(x)")
      (Some 3%Z) = Val block /\
    contains "    return a.b" block = true.
Proof.
  apply (error_block_covers_line
           (lit "x = 0\ndef f(a):\n    return a.b\n\nf(x)") 3 "    return a.b").
  - lia.
  - vm_compute. reflexivity.
Defined.

Lemma lower_char_idempotent (c : ascii) :
  lower_char (lower_char c) = lower_char c.
Proof. destruct c as [[] [] [] [] [] [] [] []]; reflexivity. Qed.

Lemma lower_idempotent (s : string) : lower (lower s) = lower s.
Proof.
  induction s as [|c s IH]; simpl; [reflexivity|].
  now rewrite lower_char_idempotent, IH.
Qed.

Lemma lower_char_space (c : ascii) : is_space (lower_char c) = is_space c.
Proof.
  destruct c as [[] [] [] [] [] [] [] []]; vm_compute; reflexivity.
Qed.

Lemma lower_lstrip (s : string) : lower (lstrip s) = lstrip (lower s).
Proof.
  induction s as [|c s IH]; [reflexivity|].
  cbn [lstrip lower]. rewrite lower_char_space.
  now destruct (is_space c).
Qed.

Lemma lower_app (a b : string) : lower (a ++ b) = (lower a ++ lower b)%string.
Proof.
  induction a as [|c a IH]; [reflexivity|].
  cbn [String.append lower]. now rewrite IH.
Qed.

Lemma lower_rev (s : string) : lower (rev s) = rev (lower s).
Proof.
  induction s as [|c s IH]; [reflexivity|].
  cbn [rev lower]. now rewrite lower_app, IH.
Qed.

Lemma lower_strip (s : string) : lower (strip s) = strip (lower s).
Proof.
  unfold strip. now rewrite lower_rev, lower_lstrip, lower_rev, lower_lstrip.
Qed.

(** X8.  The intent of a block is one of seven fixed phrases; it does not
    depend on the language argument, on the case of the letters of the
    block, nor on the whitespace around the block. *)
Theorem code_intent_properties (code_block language : string) :
  In (_determine_code_intent code_block language)
     [ "function definition"; "loop"; "class definition";
       "conditional statement"; "variable assignment";
       "import/include statement"; "code execution" ] /\
  (forall other,
      _determine_code_intent code_block other
        = _determine_code_intent code_block language) /\
  _determine_code_intent (lower code_block) language
    = _determine_code_intent code_block language /\
  _determine_code_intent (strip code_block) language
    = _determine_code_intent code_block language.
Proof.
  split; [|split; [|split]].
  - unfold _determine_code_intent.
    repeat match goal with
           | |- context [if ?b then _ else _] => destruct b
           end; simpl; tauto.
  - reflexivity.
  - unfold _determine_code_intent. now rewrite lower_idempotent.
  - unfold _determine_code_intent.
    now rewrite lower_strip, ErrorLogAnalyzerMore2.strip_idempotent.
Qed.

End StaticCodeAnalysisMore.

(** ** Pipeline and report *)

Module PipelineMore.

Import PyStr PyStrFacts Window RuleBasedSystem LanguageModelAnalyzer
  CodeErrorRecommendationEngine PipelineFacts.

(** X9.  The catalog holds entries for python and java only: when the
    detected language is neither, no lookup succeeds, and the pipeline is
    the log analysis followed by the code analysis and the heuristic
    recommender, for every log, also for an error type that the catalog
    knows. *)
Theorem other_languages_take_heuristic_path (code log : string) :
  StaticCodeAnalysis._detect_language code <> "python" ->
  StaticCodeAnalysis._detect_language code <> "java" ->
  (forall info cinfo,
      StaticCodeAnalysis.analyze code info = Val cinfo ->
      get_recommendation info cinfo = None) /\
  analyze_error code log =
    (info <- ErrorLogAnalyzer.analyze log ;;
     cinfo <- StaticCodeAnalysis.analyze code info ;;
     Val (result_of (analyze_complex_error info cinfo))).
Proof.
  intros Hpy Hjava.
  assert (Hnone : forall info cinfo,
             StaticCodeAnalysis.analyze code info = Val cinfo ->
             get_recommendation info cinfo = None).
  { intros info cinfo Hc.
    destruct (StaticCodeAnalysisFacts.code_analyze_total code info)
      as (cinfo' & Hc' & Hl).
    rewrite Hc in Hc'. inversion Hc'; subst cinfo'.
    unfold get_recommendation. apply get_None. rewrite rules_keys, Hl.
    simpl. intros H.
    repeat (destruct H as [H|H]; [inversion H; congruence|]). exact H. }
  split; [exact Hnone|].
  rewrite analyze_error_unfold.
  destruct (ErrorLogAnalyzer.analyze log) as [info| |]; cbn [bind];
    try reflexivity.
  destruct (StaticCodeAnalysis.analyze code info) as [cinfo| |] eqn:Hc;
    cbn [bind]; try reflexivity.
  now rewrite (Hnone info cinfo Hc).
Qed.

Lemma other_languages_take_heuristic_path_witness :
  StaticCodeAnalysis._detect_language "result = a[10]" = "unknown" /\
  analyze_error "result = a[10]" "IndexError: list index out of range" =
    (info <- ErrorLogAnalyzer.analyze "IndexError: list index out of range" ;;
     cinfo <- StaticCodeAnalysis.analyze "result = a[10]" info ;;
     Val (result_of (analyze_complex_error info cinfo))).
Proof.
  split; [vm_compute; reflexivity|].
  apply (other_languages_take_heuristic_path "result = a[10]"
           "IndexError: list index out of range");
    vm_compute; discriminate.
Defined.

(** X10.  A log that no declared rule matches takes the heuristic path,
    "UnknownError" being no catalog key: every result the pipeline returns
    for it has severity Medium with the Medium impact and reasoning
    sentences; its fixes are the "Initialize" entries of the extracted
    identifiers, one per identifier, in whatever order; and its best
    practices are those of the detected language alone. *)
Theorem unmatched_log_bundle (code log : string) (r : RecommendationResult) :
  forallb (fun rule => negb (Re.is_match true (fst rule) (strip log)))
    ErrorLogAnalyzer.error_patterns = true ->
  analyze_error code log = Val r ->
  severity r = MEDIUM /\
  impact r = "This may cause incorrect results or unexpected behavior in certain conditions." /\
  priority_reasoning r = "This error may cause incorrect behavior under certain conditions and should be addressed in the next development cycle." /\
  (forall fix_,
      In fix_ (proposed_fixes r) <->
      exists var,
        In var (ErrorLogAnalyzer._extract_variables (strip log)) /\
        fix_ = mkFix ("Initialize " ++ var)
                 (var ++ " = appropriate_initial_value")
                 ("Ensure the variable " ++ dq ++ var ++ dq
                    ++ " is properly defined and initialized.")) /\
  List.length (proposed_fixes r) =
    List.length (ErrorLogAnalyzer._extract_variables (strip log)) /\
  best_practices r =
    (if StaticCodeAnalysis._detect_language code =? "python" then
       [ "Follow PEP 8 style guidelines for Python code";
         "Use meaningful variable names";
         "Add docstrings to functions and classes" ]
     else if StaticCodeAnalysis._detect_language code =? "java" then
       [ "Follow Java naming conventions";
         "Use proper exception handling";
         "Initialize objects before use" ]
     else []).
Proof.
  intros Hnone Hrun.
  destruct (analyze_error_returns code log r Hrun)
    as (info & cinfo & Hi & Hc & Hl & Hr).
  assert (Hinfo : exists ln, info = unknown_record (strip log) ln).
  { unfold ErrorLogAnalyzer.analyze in Hi.
    rewrite (ErrorLogAnalyzerFacts.scan_unmatched _ _ Hnone) in Hi.
    destruct (ErrorLogAnalyzer._extract_line_number (strip log)) as [ln| |];
      cbn [bind] in Hi; try discriminate.
    inversion Hi. now exists ln. }
  destruct Hinfo as [ln ->]. unfold unknown_record in Hr.
  assert (Hmiss : get_recommendation
                    (mkErrorInfo "UnknownError" ln
                       (ErrorLogAnalyzer._extract_variables (strip log))
                       (strip log) UNKNOWN) cinfo = None).
  { apply PipelineClaims.get_recommendation_foreign_type.
    vm_compute. reflexivity. }
  rewrite Hmiss in Hr. subst r.
  unfold result_of, analyze_complex_error, _generate_fixes,
    _generate_best_practices.
  cbn [severity impact priority_reasoning proposed_fixes best_practices
       r_severity r_impact r_fixes r_best_practices classification variables
       classification_eqb app].
  rewrite Hl.
  split; [reflexivity|]. split; [reflexivity|]. split; [reflexivity|].
  split; [|split].
  - intros fix_. rewrite in_map_iff. split.
    + intros (var & Hf & Hin). exists var. now split.
    + intros (var & Hin & Hf). exists var. now split.
  - apply length_map.
  - destruct (StaticCodeAnalysis._detect_language code =? "python");
      [reflexivity|].
    destruct (StaticCodeAnalysis._detect_language code =? "java"); reflexivity.
Qed.

Lemma unmatched_log_bundle_witness :
  exists r,
    analyze_error "x = y" "crash: variable 'y' at 3" = Val r /\
    severity r = MEDIUM /\
    List.length (proposed_fixes r) = 1%nat /\
    best_practices r = [].
Proof.
  destruct (analyze_error "x = y" "crash: variable 'y' at 3")
    as [r| |] eqn:E; try (vm_compute in E; discriminate E).
  exists r. split; [reflexivity|].
  destruct (unmatched_log_bundle "x = y" "crash: variable 'y' at 3" r)
    as (Hs & _ & _ & _ & Hf & Hb).
  - vm_compute. reflexivity.
  - exact E.
  - split; [exact Hs|]. split.
    + rewrite Hf. vm_compute. reflexivity.
    + rewrite Hb. vm_compute. reflexivity.
Defined.

Lemma fixes_lines_length (fixes : list Fix) :
  forall i, List.length (fixes_lines i fixes) = (3 * List.length fixes)%nat.
Proof.
  induction fixes as [|f fixes IH]; intros i; simpl; [reflexivity|].
  rewrite IH. lia.
Qed.

Lemma fixes_lines_numbered (fixes : list Fix) :
  forall i k fix_,
    nth_error fixes k = Some fix_ ->
    In (nl ++ str_of_int (i + Z.of_nat k) ++ ". " ++ title fix_)
       (fixes_lines i fixes) /\
    In ("   Code: " ++ code fix_) (fixes_lines i fixes) /\
    In ("   Explanation: " ++ fix_explanation fix_) (fixes_lines i fixes).
Proof.
  induction fixes as [|f fixes IH]; intros i k fix_ Hk.
  - now destruct k.
  - destruct k as [|k]; cbn [nth_error] in Hk; cbn [fixes_lines].
    + inversion Hk; subst f.
      replace (i + Z.of_nat 0)%Z with i by lia.
      split; [now left|]. split; [right; now left|right; right; now left].
    + destruct (IH (i + 1)%Z k fix_ Hk) as (H1 & H2 & H3).
      replace (i + Z.of_nat (S k))%Z with (i + 1 + Z.of_nat k)%Z by lia.
      split; [|split]; right; right; right; assumption.
Qed.

(** X11.  The report drops nothing of a result: its explanation, the name
    of its severity, its impact and priority reasoning, and every best
    practice occur in it; the fixes are numbered from 1 in their order,
    each with its title, code and explanation; and the report is made of
    twelve fixed lines, three per fix and one per best practice. *)
Theorem report_embeds_result (r : RecommendationResult) :
  contains (explanation r) (format_output r) = true /\
  contains ("SEVERITY: " ++ ErrorSeverity_value (severity r))
    (format_output r) = true /\
  contains (impact r) (format_output r) = true /\
  contains (priority_reasoning r) (format_output r) = true /\
  (forall k fix_,
      nth_error (proposed_fixes r) k = Some fix_ ->
      In (nl ++ str_of_int (Z.of_nat k + 1) ++ ". " ++ title fix_)
         (report_lines r) /\
      contains (title fix_) (format_output r) = true /\
      contains (code fix_) (format_output r) = true /\
      contains (fix_explanation fix_) (format_output r) = true) /\
  (forall practice,
      In practice (best_practices r) ->
      contains practice (format_output r) = true) /\
  List.length (report_lines r) =
    (12 + 3 * List.length (proposed_fixes r)
       + List.length (best_practices r))%nat.
Proof.
  assert (Hline : forall pre x, In (pre ++ x) (report_lines r) ->
                                contains x (format_output r) = true).
  { intros pre x Hin. unfold format_output.
    apply (StaticCodeAnalysisMore.contains_sub (pre ++ x)).
    - apply contains_app_r, StaticCodeAnalysisMore.contains_self.
    - now apply StaticCodeAnalysisMore.contains_join. }
  assert (Hfix : forall x, In x (fixes_lines 1 (proposed_fixes r)) ->
                           In x (report_lines r)).
  { intros x Hx. unfold report_lines. apply in_or_app. right.
    apply in_or_app. now left. }
  split; [|split; [|split; [|split; [|split; [|split]]]]].
  - apply (Hline ""). unfold report_lines. simpl. tauto.
  - apply (Hline (nl ++ utf8 [226; 154; 160; 239; 184; 143] ++ "  ")).
    unfold report_lines. cbn [app In]. do 5 right. left.
    repeat rewrite ErrorLogAnalyzerMore2.str_app_assoc. reflexivity.
  - apply (Hline (utf8 [240; 159; 147; 138] ++ " IMPACT: ")).
    unfold report_lines. cbn [app In]. do 6 right. left.
    repeat rewrite ErrorLogAnalyzerMore2.str_app_assoc. reflexivity.
  - apply (Hline ""). unfold report_lines. cbn [app In]. do 8 right. now left.
  - intros k fix_ Hk.
    destruct (fixes_lines_numbered (proposed_fixes r) 1 k fix_ Hk)
      as (H1 & H2 & H3).
    replace (Z.of_nat k + 1)%Z with (1 + Z.of_nat k)%Z by lia.
    split; [now apply Hfix|]. split; [|split].
    + apply (Hline (nl ++ str_of_int (1 + Z.of_nat k) ++ ". ")).
      repeat rewrite ErrorLogAnalyzerMore2.str_app_assoc. now apply Hfix.
    + apply (Hline "   Code: "). now apply Hfix.
    + apply (Hline "   Explanation: "). now apply Hfix.
  - intros practice Hin.
    apply (Hline (utf8 [226; 128; 162] ++ " ")).
    unfold report_lines. apply in_or_app. right. apply in_or_app. right.
    apply in_or_app. right. apply in_or_app. left.
    apply in_map_iff. exists practice.
    split; [|exact Hin].
    repeat rewrite ErrorLogAnalyzerMore2.str_app_assoc. reflexivity.
  - unfold report_lines.
    rewrite !length_app, fixes_lines_length, length_map. simpl. lia.
Qed.

End PipelineMore.
